(** * Cross-lingual QA system: the retrieval core, embedded and verified

    The development follows the four Python scripts of the repository:
    - [create_embeddings.py]  writes [knowledge_base/sentences.txt] and
      [knowledge_base/embeddings.npy];
    - [build_index.py]        [load_knowledge_base], [create_faiss_index],
      [search] and [main], which writes [knowledge_base/faiss.index];
    - [app.py]                the Flask handler [search_endpoint] over the
      module globals [MODEL], [FAISS_INDEX], [SENTENCES],
      [ENGLISH_SENTENCES].

    Python values are embedded as follows.  A [str] is its sequence of
    Unicode code points.  A 2-D numpy array is its column count together
    with its rows.  Array entries are exact integers: float32 rounding is
    outside the model, every other step is as the code has it; a property
    that depends on the value of a distance is stated for arrays that
    float32 holds exactly ([float32_exact]).  A raised
    exception is [Raise] with the name of its class.  The encoder
    ([SentenceTransformer.encode]) is an argument of the code and stays an
    argument here.  The FAISS flat index and the numpy/OS calls are external
    libraries: they are modelled in the modules [np], [os_path], [io] and
    [faiss] below, after their documented behaviour.  Console output
    ([print]) is modelled for [loading_data.py] only, whose whole effect it
    is. *)

From Stdlib Require Import ZArith NArith List Lia Ascii.
From stdpp Require Import base option list sorting gmap strings pretty.

Open Scope Z_scope.

(** ** Exceptions and the two monads *)

(** A Python exception, identified by the name of its class. *)
Definition exn := string.

Inductive result (A : Type) : Type :=
| Ok (a : A)
| Raise (e : exn).
Arguments Ok {A} a.
Arguments Raise {A} e.

#[global] Instance result_ret : MRet result := fun A a => Ok a.
#[global] Instance result_bind : MBind result := fun A B f m =>
  match m with
  | Ok a => f a
  | Raise e => Raise e
  end.

(** Python code points and strings. *)
Abbreviation char := N.
Abbreviation str := (list N).

(** An ASCII literal of the source as a Python [str]. *)
Definition u (s : string) : str :=
  map Ascii.N_of_ascii (String.list_ascii_of_string s).

Definition LF : char := 10%N.
Definition CR : char := 13%N.

(** A two-dimensional numpy array: [a.shape = (length rows, ncols)]. *)
Record ndarray : Type := NDArray { ncols : nat; rows : list (list Z) }.

Definition shape0 (a : ndarray) : nat := length (rows a).
Definition shape1 (a : ndarray) : nat := ncols a.

(** numpy arrays are rectangular by construction. *)
Definition rectangular (a : ndarray) : Prop :=
  Forall (fun r => length r = ncols a) (rows a).

(** ** The external world: files and calls to the external collaborators *)

Inductive file : Type :=
| TextFile (content : str)
| NpyFile (a : ndarray)
| BinaryFile (words : list Z).

Inductive call : Type :=
| EncoderCall (texts : list str)
| IndexSearchCall (x : ndarray) (k : Z).

Record world : Type := World { files : gmap string file; calls : list call }.

(** A computation that may touch the world and may raise; the world
    survives a raise, as a file written before an exception stays written. *)
Definition Py (A : Type) : Type := world -> result A * world.

Definition py_ret {A} (a : A) : Py A := fun w => (Ok a, w).
Definition py_bind {A B} (m : Py A) (f : A -> Py B) : Py B := fun w =>
  match m w with
  | (Ok a, w') => f a w'
  | (Raise e, w') => (Raise e, w')
  end.
Definition py_lift {A} (r : result A) : Py A := fun w => (r, w).

#[global] Instance py_mret : MRet Py := @py_ret.
#[global] Instance py_mbind : MBind Py := fun A B f m => py_bind m f.

(** ** Python built-ins used by the scripts *)

(** [l[i]] on a list or an array axis: negative indices count from the end,
    anything outside [-len, len) raises [IndexError]. *)
Definition getitem {A} (l : list A) (i : Z) : result A :=
  let n := Z.of_nat (length l) in
  let j := if i <? 0 then i + n else i in
  if (j <? 0) || (n <=? j) then Raise "IndexError"
  else match l !! Z.to_nat j with
       | Some x => Ok x
       | None => Raise "IndexError"
       end.

(** [for i, x in enumerate(l): s = body i x s], stopping at the first raise. *)
Fixpoint for_enumerate {A S} (i : Z) (l : list A)
    (body : Z -> A -> S -> result S) (s : S) : result S :=
  match l with
  | [] => Ok s
  | x :: l' =>
      match body i x s with
      | Ok s' => for_enumerate (i + 1) l' body s'
      | Raise e => Raise e
      end
  end.

(** [str.isspace] on one code point (the table of CPython's
    [_PyUnicode_IsWhitespace]). *)
Definition isspace (c : char) : bool :=
  ((9 <=? c) && (c <=? 13) || (28 <=? c) && (c <=? 32)
   || (c =? 133) || (c =? 160) || (c =? 5760)
   || (8192 <=? c) && (c <=? 8202)
   || (c =? 8232) || (c =? 8233) || (c =? 8239) || (c =? 8287)
   || (c =? 12288))%N.

Fixpoint lstrip (s : str) : str :=
  match s with
  | [] => []
  | c :: s' => if isspace c then lstrip s' else s
  end.

Definition rstrip (s : str) : str := rev (lstrip (rev s)).

(** [s.strip()] *)
Definition strip (s : str) : str := lstrip (rstrip s).

(** [f"{x:.4f}"] for an integral value. *)
Definition format_4f (x : Z) : str := u (pretty x) ++ u ".0000".

(** ** Models of the external libraries *)

Module os_path.

Definition starts_with_sep (s : string) : bool :=
  match s with
  | String c _ => bool_decide (c = "/"%char)
  | EmptyString => false
  end.

Fixpoint ends_with_sep (s : string) : bool :=
  match s with
  | EmptyString => false
  | String c EmptyString => bool_decide (c = "/"%char)
  | String _ s' => ends_with_sep s'
  end.

(** [os.path.join(a, b)] of posixpath. *)
Definition join (a b : string) : string :=
  if starts_with_sep b then b
  else if bool_decide (a = EmptyString) || ends_with_sep a then a +:+ b
  else a +:+ "/" +:+ b.

(** [os.path.exists(path)] *)
Definition exists_ (path : string) : Py bool := fun w =>
  (Ok (bool_decide (is_Some (files w !! path))), w).

End os_path.

Module np.

(** [np.save(path, a)]: the array is stored with its shape. *)
Definition save (path : string) (a : ndarray) : Py unit := fun w =>
  (Ok (), World (<[path := NpyFile a]> (files w)) (calls w)).

(** [np.load(path)]: an empty file raises [EOFError], any other file that
    is not a saved array [ValueError]. *)
Definition load (path : string) : Py ndarray := fun w =>
  match files w !! path with
  | Some (NpyFile a) => (Ok a, w)
  | Some (TextFile []) | Some (BinaryFile []) => (Raise "EOFError", w)
  | Some _ => (Raise "ValueError", w)
  | None => (Raise "FileNotFoundError", w)
  end.

End np.

Module io.

(** Text mode with the default [newline=None]: on input, CR LF and a
    lone CR both read as LF. *)
Fixpoint universal_newlines (s : str) : str :=
  match s with
  | [] => []
  | c :: s' =>
      if (c =? CR)%N then
        LF :: match s' with
              | c' :: s'' =>
                  if (c' =? LF)%N then universal_newlines s''
                  else universal_newlines s'
              | [] => []
              end
      else c :: universal_newlines s'
  end.

(** The lines of a text, each with its terminating LF; [cur] is the line
    being read. *)
Fixpoint split_keepends (cur : str) (s : str) : list str :=
  match s with
  | [] => match cur with [] => [] | _ => [cur] end
  | c :: s' =>
      if (c =? LF)%N then (cur ++ [LF]) :: split_keepends [] s'
      else split_keepends (cur ++ [c]) s'
  end.

(** [open(path, "r", encoding="utf-8").readlines()] *)
Definition readlines (path : string) : Py (list str) := fun w =>
  match files w !! path with
  | Some (TextFile content) =>
      (Ok (split_keepends [] (universal_newlines content)), w)
  | Some _ => (Raise "UnicodeDecodeError", w)
  | None => (Raise "FileNotFoundError", w)
  end.

(** [open(path, "w", encoding="utf-8")]: creates or truncates the file. *)
Definition open_w (path : string) : Py unit := fun w =>
  (Ok (), World (<[path := TextFile []]> (files w)) (calls w)).

(** [f.write(s)] on the file opened at [path]. *)
Definition write (path : string) (s : str) : Py unit := fun w =>
  match files w !! path with
  | Some (TextFile content) =>
      (Ok (), World (<[path := TextFile (content ++ s)]> (files w)) (calls w))
  | _ => (Raise "ValueError", w)
  end.

End io.

(** [for x in l: body x] in the world monad. *)
Fixpoint for_each {A} (l : list A) (body : A -> Py unit) : Py unit :=
  match l with
  | [] => mret ()
  | x :: l' => _ ← body x; for_each l' body
  end.

(** The FAISS flat index.  FAISS is an external library: the repository
    holds its callers, not its code.  [IndexFlatL2] stores the added
    vectors as they are and answers a query by scanning all of them. *)
Module faiss.

Record IndexFlatL2 : Type := Index { index_d : nat; index_xb : list (list Z) }.

(** [faiss.IndexFlatL2(d)] *)
Definition new (d : nat) : IndexFlatL2 := Index d [].

(** [index.ntotal] *)
Definition ntotal (index : IndexFlatL2) : nat := length (index_xb index).

(** [index.add(x)]: the wrapper asserts the dimension, then appends. *)
Definition add (index : IndexFlatL2) (x : ndarray) : result IndexFlatL2 :=
  if bool_decide (shape1 x = index_d index)
  then Ok (Index (index_d index) (index_xb index ++ rows x))
  else Raise "AssertionError".

Fixpoint fvec_L2sqr (x y : list Z) : Z :=
  match x, y with
  | a :: x', b :: y' => (a - b) * (a - b) + fvec_L2sqr x' y'
  | _, _ => 0
  end.

(** A search hit: (distance, label). *)
Abbreviation hit := (Z * Z)%type.

Definition FLT_MAX : Z := 340282346638528859811704183484516925440.

Definition empty_slot : hit := (FLT_MAX, -1).

(** [CMax::cmp2]: is [a] worse than [b]? Larger distance, or the same
    distance and a larger label. *)
Definition cmp2 (a b : hit) : bool :=
  (b.1 <? a.1) || ((a.1 =? b.1) && (b.2 <? a.2)).

(** The handler's [k] slots, kept best first; the last slot is the top of
    FAISS's max-heap. *)
Fixpoint insert_hit (c : hit) (h : list hit) : list hit :=
  match h with
  | [] => [c]
  | x :: h' => if cmp2 x c then c :: x :: h' else x :: insert_hit c h'
  end.

(** [add_result]: a candidate replaces the worst slot when its distance
    is strictly below that slot's distance. *)
Definition add_result (c : hit) (h : list hit) : list hit :=
  match last h with
  | Some top => if c.1 <? top.1 then insert_hit c (removelast h) else h
  | None => h
  end.

Fixpoint scan (q : list Z) (label : Z) (ys : list (list Z)) (h : list hit)
    : list hit :=
  match ys with
  | [] => h
  | y :: ys' => scan q (label + 1) ys' (add_result (fvec_L2sqr q y, label) h)
  end.

(** Modelled from the spec: the search of [IndexFlatL2] is FAISS code,
    missing from the repository.  Spec 4.3: exact search under squared Euclidean
    distance; the distance from the query to every stored vector is
    computed and the smallest are returned in ascending order, ties broken
    by ascending id.  Here: one pass over the stored vectors in id order,
    the best [k] hits kept in that order in the handler's slots. *)
Definition knn (index : IndexFlatL2) (k : nat) (q : list Z) : list hit :=
  scan q 0 (index_xb index) (replicate k empty_slot).

(** [index.search(x, k)].  After the library's documentation, where the
    spec's words stop: the Python wrapper asserts the dimension of [x] and
    [k > 0]; the answer is the pair of arrays (distances, labels), both of
    shape [(x.shape[0], k)] whatever the number of stored vectors, a slot
    without a neighbour holding label [-1] and distance [FLT_MAX]. *)
Definition search (index : IndexFlatL2) (x : ndarray) (k : Z)
    : result (ndarray * ndarray) :=
  if negb (bool_decide (shape1 x = index_d index)) then Raise "AssertionError"
  else if negb (0 <? k) then Raise "AssertionError"
  else
    let hits := map (knn index (Z.to_nat k)) (rows x) in
    Ok (NDArray (Z.to_nat k) (map (map fst) hits),
        NDArray (Z.to_nat k) (map (map snd) hits)).

(** The tag of a flat L2 index file, "IxF2". *)
Definition fourcc_IxF2 : Z := 843479113.

(** Modelled from the spec: [faiss.write_index] and [faiss.read_index] are
    FAISS code, missing from the repository.  Spec 6: the index artifact is
    a structured binary blob whose contract is round-trip fidelity.  Here
    the blob is the tag, the dimension, the number of vectors and the
    vectors, row after row; reading checks the tag and the sizes. *)
Definition serialize (index : IndexFlatL2) : list Z :=
  fourcc_IxF2 :: Z.of_nat (index_d index) :: Z.of_nat (ntotal index)
  :: concat (index_xb index).

Fixpoint chunks (n d : nat) (l : list Z) : list (list Z) :=
  match n with
  | O => []
  | S n' => take d l :: chunks n' d (drop d l)
  end.

Definition deserialize (words : list Z) : result IndexFlatL2 :=
  match words with
  | tag :: d :: n :: payload =>
      if negb (tag =? fourcc_IxF2) then Raise "RuntimeError"
      else if (d <? 0) || (n <? 0) then Raise "RuntimeError"
      else if negb (Z.of_nat (length payload) =? d * n) then Raise "RuntimeError"
      else Ok (Index (Z.to_nat d) (chunks (Z.to_nat n) (Z.to_nat d) payload))
  | _ => Raise "RuntimeError"
  end.

(** [faiss.write_index(index, path)] *)
Definition write_index (index : IndexFlatL2) (path : string) : Py unit :=
  fun w =>
    (Ok (), World (<[path := BinaryFile (serialize index)]> (files w)) (calls w)).

(** [faiss.read_index(path)] *)
Definition read_index (path : string) : Py IndexFlatL2 := fun w =>
  match files w !! path with
  | Some (BinaryFile words) => (deserialize words, w)
  | _ => (Raise "RuntimeError", w)
  end.

End faiss.

(** ** External collaborators passed to the scripts *)

(** The encoder: [model.encode(texts)] gives one row per text, or raises. *)
Record SentenceTransformer : Type := { encode : list str -> result ndarray }.

(** One row of the Tatoeba dataset: [ex['translation']['de'|'en']]. *)
Record example : Type := { de : str; en : str }.

(** [dataset.select(range(n))]: an empty dataset is returned as it is;
    otherwise the range has to lie within the rows. *)
Definition select_range (dataset : list example) (n : nat) : result (list example) :=
  match dataset with
  | [] => Ok []
  | _ :: _ =>
      if (n <=? length dataset)%nat then Ok (take n dataset) else Raise "IndexError"
  end.

(** ** create_embeddings.py *)

Definition create_embeddings (model : SentenceTransformer) (documents : list str)
    : result ndarray :=
  embeddings ← encode model documents;
  mret embeddings.

(** The [with open(sentence_path, "w") ...] block of [main]. *)
Definition write_sentences (sentence_path : string) (german_sentences : list str)
    : Py unit :=
  _ ← io.open_w sentence_path;
  for_each german_sentences (fun sentence =>
    io.write sentence_path (sentence ++ [LF])).

Definition create_embeddings_main (dataset : list example)
    (model : SentenceTransformer) : Py unit :=
  let num_documents := Z.to_nat 10000 in
  selected ← py_lift (select_range dataset num_documents);
  let german_sentences := map de selected in
  german_embeddings ← py_lift (create_embeddings model german_sentences);
  let output_dir := "knowledge_base"%string in
  let embeddings_path := os_path.join output_dir "embeddings.npy" in
  let sentence_path := os_path.join output_dir "sentences.txt" in
  _ ← np.save embeddings_path german_embeddings;
  write_sentences sentence_path german_sentences.

(** ** build_index.py *)

(** The source returns the pair [(embeddings, sentences)] or the pair
    [(None, None)]; the latter is [None] here. *)
Definition load_knowledge_base (directory : string)
    : Py (option (ndarray * list str)) :=
  let embeddings_path := os_path.join directory "embeddings.npy" in
  let sentences_path := os_path.join directory "sentences.txt" in
  e1 ← os_path.exists_ embeddings_path;
  e2 ← os_path.exists_ sentences_path;
  if negb e1 || negb e2 then mret None
  else
    embeddings ← np.load embeddings_path;
    lines ← io.readlines sentences_path;
    let sentences := map strip lines in
    mret (Some (embeddings, sentences)).

Definition create_faiss_index (embeddings : ndarray) : result faiss.IndexFlatL2 :=
  let dimension := shape1 embeddings in
  let index := faiss.new dimension in
  index ← faiss.add index embeddings;
  mret index.

Definition search (query_text : str) (model : SentenceTransformer)
    (index : faiss.IndexFlatL2) (sentences : list str) (top_k : Z)
    : result (list (str * Z)) :=
  query_embedding ← encode model [query_text];
  '(distances, indices) ← faiss.search index query_embedding top_k;
  indices0 ← getitem (rows indices) 0;
  for_enumerate 0 indices0 (fun i idx results =>
    sentence ← getitem sentences idx;
    distances0 ← getitem (rows distances) 0;
    distance ← getitem distances0 i;
    mret (results ++ [(sentence, distance)])) [].

Definition test_query : str := u "Where is the nearest train station?".

Definition build_index_main (model : SentenceTransformer) : Py unit :=
  kb ← load_knowledge_base "knowledge_base";
  match kb with
  | None => mret ()
  | Some (embeddings, sentences) =>
      faiss_index ← py_lift (create_faiss_index embeddings);
      let output_dir := "knowledge_base"%string in
      let index_path := os_path.join output_dir "faiss.index" in
      _ ← faiss.write_index faiss_index index_path;
      search_results ← py_lift (search test_query model faiss_index sentences 3);
      mret ()
  end.

(** ** app.py *)

(** The module globals. *)
Record App : Type := {
  MODEL : SentenceTransformer;
  FAISS_INDEX : faiss.IndexFlatL2;
  SENTENCES : list str;
  ENGLISH_SENTENCES : list str
}.

(** The module body run at import time. *)
Definition app_startup (model : SentenceTransformer) (dataset : list example)
    : Py App :=
  faiss_index ← faiss.read_index "knowledge_base/faiss.index";
  let num_documents := Z.to_nat 10000 in
  selected_de ← py_lift (select_range dataset num_documents);
  selected_en ← py_lift (select_range dataset num_documents);
  mret {| MODEL := model; FAISS_INDEX := faiss_index;
          SENTENCES := map de selected_de;
          ENGLISH_SENTENCES := map en selected_en |}.

(** One element of the JSON answer. *)
Record answer : Type := { sentence : str; translation : str; score : str }.

(** [MODEL.encode(texts)] and [FAISS_INDEX.search(x, k)], each recorded in
    the world's call log before it runs. *)
Definition MODEL_encode (app : App) (texts : list str) : Py ndarray := fun w =>
  (encode (MODEL app) texts, World (files w) (calls w ++ [EncoderCall texts])).

Definition FAISS_INDEX_search (app : App) (x : ndarray) (k : Z)
    : Py (ndarray * ndarray) := fun w =>
  (faiss.search (FAISS_INDEX app) x k,
   World (files w) (calls w ++ [IndexSearchCall x k])).

(** [data] is the JSON object of the request, with string values. *)
Definition search_endpoint (app : App) (data : gmap string str) : Py (list answer) :=
  let query_text := default [] (data !! "query"%string) in
  let top_k := 5 in
  if bool_decide (query_text = []) then mret []
  else
    query_embedding ← MODEL_encode app [query_text];
    '(distances, indices) ← FAISS_INDEX_search app query_embedding top_k;
    py_lift (
      indices0 ← getitem (rows indices) 0;
      for_enumerate 0 indices0 (fun i idx results =>
        sentence ← getitem (SENTENCES app) idx;
        translation ← getitem (ENGLISH_SENTENCES app) idx;
        distances0 ← getitem (rows distances) 0;
        distance ← getitem distances0 i;
        mret (results ++ [{| sentence := sentence; translation := translation;
                             score := format_4f distance |}])) []).

(** ** loading_data.py *)

(** The console: one entry per call of [print].  This script does nothing
    but print, so for it the console is modelled. *)
Definition Out (A : Type) : Type := list str -> result A * list str.

Definition out_ret {A} (a : A) : Out A := fun c => (Ok a, c).
Definition out_bind {A B} (m : Out A) (f : A -> Out B) : Out B := fun c =>
  match m c with
  | (Ok a, c') => f a c'
  | (Raise e, c') => (Raise e, c')
  end.
Definition out_lift {A} (r : result A) : Out A := fun c => (r, c).

#[global] Instance out_mret : MRet Out := @out_ret.
#[global] Instance out_mbind : MBind Out := fun A B f m => out_bind m f.

(** [print(s)] *)
Definition print (s : str) : Out unit := fun c => (Ok (), c ++ [s]).

(** [try: body  except Exception as e: handler e] *)
Definition try_except {A} (body : Out A) (handler : exn -> Out A) : Out A :=
  fun c =>
    match body c with
    | (Ok a, c') => (Ok a, c')
    | (Raise e, c') => handler e c'
    end.

(** [for i in range(first, first + n): body i] *)
Fixpoint for_range (first : Z) (n : nat) (body : Z -> Out unit) : Out unit :=
  match n with
  | O => mret ()
  | S n' => _ ← body first; for_range (first + 1) n' body
  end.

(** The three prints of one example of the loop. *)
Definition print_example (dataset : list example) (i : Z) : Out unit :=
  example ← out_lift (getitem dataset i);
  let german_sentence := de example in
  let english_sentence := en example in
  _ ← print ([LF] ++ u "-- Example " ++ u (pretty (i + 1)) ++ u " --");
  _ ← print (u " German: " ++ german_sentence);
  print (u " English: " ++ english_sentence).

(** [main] of loading_data.py.  [load_dataset] is the outcome of the call
    to the datasets library and [message e] is [str(e)]. *)
Definition loading_data_main (load_dataset : result (list example))
    (message : exn -> str) : Out unit :=
  _ ← print (u "Starting Step 1: Loading the dataset...");
  try_except
    (_ ← print (u "Downloading the Tatoeba dataset for German-English...");
     dataset ← out_lift load_dataset;
     _ ← print (u "Dataset downloaded successfully!");
     _ ← print ([LF] ++ u "Number of sentence pairs in the dataset: "
                ++ u (pretty (length dataset)));
     _ ← print ([LF] ++ u "Here are the first 5 examples from the dataset:");
     for_range 0 5 (print_example dataset))
    (fun e =>
       _ ← print ([LF] ++ u "An error occurred: " ++ message e);
       _ ← print (u "Please ensure you have an internet connection and have installed the 'datasets' library.");
       print (u "You can install it with: pip install datasets")).

(** ** Views used to state the properties *)

(** The (id, distance) pairs that the loop of [search] walks through: the
    first row of the labels with the matching entries of the first row of
    the distances. *)
Definition neighbours (index : faiss.IndexFlatL2) (query_embedding : ndarray)
    (top_k : Z) : result (list (Z * Z)) :=
  '(distances, indices) ← faiss.search index query_embedding top_k;
  indices0 ← getitem (rows indices) 0;
  for_enumerate 0 indices0 (fun i idx results =>
    distances0 ← getitem (rows distances) 0;
    distance ← getitem distances0 i;
    mret (results ++ [(idx, distance)])) [].

(** Ascending distance, ties by ascending label, on (distance, label). *)
Definition hit_le (a b : faiss.hit) : Prop :=
  a.1 < b.1 \/ (a.1 = b.1 /\ a.2 <= b.2).

Definition swap_hit (h : faiss.hit) : Z * Z := (h.2, h.1).

(** Every slot of the result handler holds the label of a scanned vector,
    with a distance below [FLT_MAX], or is still empty. *)
Definition slot_ok (lo hi : Z) (x : faiss.hit) : Prop :=
  x = faiss.empty_slot \/ (lo <= x.2 < hi /\ x.1 < faiss.FLT_MAX).



(** A sentence that fits on one line of [sentences.txt]. *)
Definition one_line (s : str) : Prop := (LF ∉ s) /\ (CR ∉ s).

#[global] Instance one_line_dec (s : str) : Decision (one_line s).
Proof. unfold one_line. apply _. Defined.

(** The answers [search_endpoint] assembles from (id, distance) pairs. *)
Definition answer_of (app : App) (n : Z * Z) : result answer :=
  sentence ← getitem (SENTENCES app) n.1;
  translation ← getitem (ENGLISH_SENTENCES app) n.1;
  mret {| sentence := sentence; translation := translation;
          score := format_4f n.2 |}.

Definition sentence_of (sentences : list str) (n : Z * Z) : result (str * Z) :=
  sentence ← getitem sentences n.1;
  mret (sentence, n.2).

(** What [loading_data.py] prints for one example, for a run of examples
    numbered from [first], and when it reports an exception. *)
Definition example_lines (i : Z) (ex : example) : list str :=
  [ [LF] ++ u "-- Example " ++ u (pretty (i + 1)) ++ u " --";
    u " German: " ++ de ex;
    u " English: " ++ en ex ].

Fixpoint printed_examples (first : Z) (l : list example) : list str :=
  match l with
  | [] => []
  | ex :: l' => example_lines first ex ++ printed_examples (first + 1) l'
  end.

Definition error_notice (message : exn -> str) (e : exn) : list str :=
  [ [LF] ++ u "An error occurred: " ++ message e;
    u "Please ensure you have an internet connection and have installed the 'datasets' library.";
    u "You can install it with: pip install datasets" ].

(** ** Sample data and test doubles *)

(** A test double for the encoder: every text is embedded as [v]. *)
Definition constant_encoder (v : list Z) : SentenceTransformer :=
  {| encode := fun texts => Ok (NDArray (length v) (map (fun _ => v) texts)) |}.

(** A test double for an encoder that fails with exception [e]. *)
Definition failing_encoder (e : exn) : SentenceTransformer :=
  {| encode := fun _ => Raise e |}.

Definition sample_matrix : ndarray := NDArray 2 [[0; 0]; [1; 1]].
Definition sample_index : faiss.IndexFlatL2 := faiss.Index 2 [[0; 0]; [1; 1]].
Definition sample_sentences : list str := [u "Hallo Welt"; u "Guten Morgen"].
Definition sample_translations : list str := [u "Hello world"; u "Good morning"].

(** A knowledge base whose files disagree: three embedding rows, two
    sentences. *)
Definition mismatched_world : world :=
  World (<["knowledge_base/embeddings.npy"%string :=
             NpyFile (NDArray 2 [[0; 0]; [1; 1]; [2; 2]])]>
           (<["knowledge_base/sentences.txt"%string :=
                TextFile (u "Hallo Welt" ++ [LF] ++ u "Guten Morgen" ++ [LF])]> ∅))
        [].

Definition empty_world : world := World ∅ [].

(** The application over the sample corpus, with a given encoder. *)
Definition sample_app (model : SentenceTransformer) : App :=
  {| MODEL := model; FAISS_INDEX := sample_index;
     SENTENCES := sample_sentences; ENGLISH_SENTENCES := sample_translations |}.

(** The JSON body [{"query": q}]. *)
Definition query_body (q : str) : gmap string str := {[ "query"%string := q ]}.

(** The knowledge base of the sample corpus, as [create_embeddings.py]
    leaves it on disk. *)
Definition sample_world : world :=
  World (<["knowledge_base/embeddings.npy"%string := NpyFile sample_matrix]>
           (<["knowledge_base/sentences.txt"%string :=
                TextFile (u "Hallo Welt" ++ [LF] ++ u "Guten Morgen" ++ [LF])]> ∅))
        [].

(** A dataset of the size the scripts expect. *)
Definition sample_dataset : list example :=
  replicate (Z.to_nat 10000) {| de := u " Ja"; en := u "Yes" |}.

(** The application as app.py starts it over [sample_dataset] and the
    sample index. *)
Definition started_app : App :=
  {| MODEL := constant_encoder [0; 0]; FAISS_INDEX := sample_index;
     SENTENCES := map de (take (Z.to_nat 10000) sample_dataset);
     ENGLISH_SENTENCES := map en (take (Z.to_nat 10000) sample_dataset) |}.

(** * Properties *)

(** ** Python built-ins *)

Lemma getitem_nat {A} (l : list A) (i : nat) (x : A) :
  l !! i = Some x -> getitem l (Z.of_nat i) = Ok x.
Proof.
  intros Hl. pose proof (lookup_lt_Some _ _ _ Hl) as Hlt.
  unfold getitem.
  destruct (Z.ltb_spec (Z.of_nat i) 0) as [?|_]; [lia|].
  destruct (Z.ltb_spec (Z.of_nat i) 0) as [?|_]; [lia|].
  destruct (Z.leb_spec (Z.of_nat (length l)) (Z.of_nat i)) as [?|_]; [lia|].
  simpl. by rewrite Nat2Z.id, Hl.
Qed.

Lemma getitem_minus_one {A} (l : list A) (x : A) :
  getitem (l ++ [x]) (-1) = Ok x.
Proof.
  unfold getitem. rewrite length_app. simpl length.
  replace (-1 <? 0) with true by done.
  destruct (Z.ltb_spec (-1 + Z.of_nat (length l + 1)) 0) as [?|_]; [lia|].
  destruct (Z.leb_spec (Z.of_nat (length l + 1))
              (-1 + Z.of_nat (length l + 1))) as [?|_]; [lia|].
  simpl. replace (Z.to_nat (-1 + Z.of_nat (length l + 1))) with (length l) by lia.
  by rewrite list_lookup_middle.
Qed.

Lemma getitem_in_range {A} (l : list A) (i : Z) :
  (- Z.of_nat (length l)) <= i < Z.of_nat (length l) -> exists x, getitem l i = Ok x.
Proof.
  intros Hi. unfold getitem.
  set (j := if i <? 0 then i + Z.of_nat (length l) else i).
  assert (0 <= j < Z.of_nat (length l)) as Hj.
  { subst j. destruct (Z.ltb_spec i 0); lia. }
  destruct (Z.ltb_spec j 0) as [?|_]; [lia|].
  destruct (Z.leb_spec (Z.of_nat (length l)) j) as [?|_]; [lia|].
  simpl. destruct (lookup_lt_is_Some_2 l (Z.to_nat j)) as [x Hx]; [lia|].
  exists x. by rewrite Hx.
Qed.

(** The loops of [search], [search_endpoint] and [neighbours] all pair the
    labels with the distances at the same position. *)
Lemma for_enumerate_paired {B C} (g : Z * Z -> result B) (F : B -> C)
    (body : Z -> Z -> list C -> result (list C)) (dall : list Z) :
  forall (suf : list faiss.hit) (pre : list faiss.hit) (acc : list C),
    dall = map fst (pre ++ suf) ->
    (forall i idx d results, getitem dall i = Ok d ->
       body i idx results = (b ← g (idx, d); mret (results ++ [F b]))) ->
    for_enumerate (Z.of_nat (length pre)) (map snd suf) body acc
    = (ys ← mapM (fun h => b ← g (swap_hit h); mret (F b)) suf; mret (acc ++ ys)).
Proof.
  induction suf as [|h suf IH]; intros pre acc Hd Hbody.
  - simpl. by rewrite app_nil_r.
  - simpl map. cbn [for_enumerate].
    assert (getitem dall (Z.of_nat (length pre)) = Ok h.1) as Hget.
    { apply getitem_nat. rewrite Hd, map_app. simpl.
      rewrite <- (length_map fst pre). by rewrite list_lookup_middle. }
    rewrite (Hbody _ _ _ _ Hget).
    change (swap_hit h) with (h.2, h.1).
    destruct (g (h.2, h.1)) as [b|e] eqn:Hg; simpl.
    + replace (Z.of_nat (length pre) + 1) with (Z.of_nat (length (pre ++ [h]))).
      2:{ rewrite length_app. simpl. lia. }
      rewrite (IH (pre ++ [h]) (acc ++ [F b])).
      * unfold mapM at 2. fold (mapM (fun h0 => b0 ← g (swap_hit h0); mret (F b0))).
        change (swap_hit h) with (h.2, h.1). rewrite Hg. simpl.
        destruct (mapM _ suf) as [ys|e]; simpl; [|done].
        by rewrite <- app_assoc.
      * by rewrite <- app_assoc.
      * done.
    + unfold mapM. change (swap_hit h) with (h.2, h.1). by rewrite Hg.
Qed.

(** ** The FAISS result handler *)

Section handler.
Import faiss.

Lemma cmp2_false (a b : hit) : cmp2 a b = false -> hit_le a b.
Proof.
  unfold cmp2, hit_le. intros H.
  apply orb_false_iff in H as [H1 H2]. apply Z.ltb_ge in H1.
  apply andb_false_iff in H2 as [H2|H2].
  - apply Z.eqb_neq in H2. lia.
  - apply Z.ltb_ge in H2. lia.
Qed.

Lemma cmp2_true (a b : hit) : cmp2 a b = true -> hit_le b a.
Proof.
  unfold cmp2, hit_le. intros H.
  apply orb_true_iff in H as [H|H].
  - apply Z.ltb_lt in H. lia.
  - apply andb_true_iff in H as [H1 H2].
    apply Z.eqb_eq in H1. apply Z.ltb_lt in H2. lia.
Qed.

Lemma hit_le_trans (a b c : hit) : hit_le a b -> hit_le b c -> hit_le a c.
Proof. unfold hit_le. lia. Qed.

Lemma length_insert_hit (c : hit) (h : list hit) :
  length (insert_hit c h) = S (length h).
Proof.
  induction h as [|x h IH]; simpl; [done|].
  destruct (cmp2 x c); simpl; by rewrite ?IH.
Qed.

Lemma length_add_result (c : hit) (h : list hit) :
  length (add_result c h) = length h.
Proof.
  unfold add_result. destruct (last h) as [top|] eqn:Hlast; [|done].
  destruct (c.1 <? top.1); [|done].
  apply last_Some in Hlast as [h' ->].
  rewrite removelast_last, length_insert_hit, length_app. simpl. lia.
Qed.

Lemma length_scan (q : list Z) (ys : list (list Z)) :
  forall (label : Z) (h : list hit), length (scan q label ys h) = length h.
Proof.
  induction ys as [|y ys IH]; intros label h; simpl; [done|].
  by rewrite IH, length_add_result.
Qed.

Lemma elem_of_insert_hit (c x : hit) (h : list hit) :
  x ∈ insert_hit c h <-> x = c \/ x ∈ h.
Proof.
  induction h as [|y h IH]; simpl.
  - rewrite list_elem_of_singleton, elem_of_nil. tauto.
  - destruct (cmp2 y c).
    + rewrite !elem_of_cons. tauto.
    + rewrite !elem_of_cons, IH. tauto.
Qed.

Lemma insert_hit_sorted (c : hit) (h : list hit) :
  StronglySorted hit_le h -> StronglySorted hit_le (insert_hit c h).
Proof.
  induction 1 as [|x h Hs IH Hx]; simpl.
  - repeat constructor.
  - destruct (cmp2 x c) eqn:Hc.
    + apply cmp2_true in Hc. constructor; [by constructor|].
      constructor; [done|].
      eapply Forall_impl; [exact Hx|]. intros y Hy. by eapply hit_le_trans.
    + apply cmp2_false in Hc. constructor; [done|].
      apply Forall_forall. intros y Hy.
      apply elem_of_insert_hit in Hy as [->|Hy]; [done|].
      rewrite Forall_forall in Hx. by apply Hx.
Qed.

Lemma add_result_sorted (c : hit) (h : list hit) :
  StronglySorted hit_le h -> StronglySorted hit_le (add_result c h).
Proof.
  intros Hs. unfold add_result.
  destruct (last h) as [top|] eqn:Hlast; [|done].
  destruct (c.1 <? top.1); [|done].
  apply last_Some in Hlast as [h' ->]. rewrite removelast_last.
  apply insert_hit_sorted. by apply StronglySorted_app_1_l in Hs.
Qed.

Lemma scan_sorted (q : list Z) (ys : list (list Z)) :
  forall (label : Z) (h : list hit),
    StronglySorted hit_le h -> StronglySorted hit_le (scan q label ys h).
Proof.
  induction ys as [|y ys IH]; intros label h Hs; simpl; [done|].
  by apply IH, add_result_sorted.
Qed.

Lemma empty_slots_sorted (k : nat) :
  StronglySorted hit_le (replicate k empty_slot).
Proof.
  induction k as [|k IH]; simpl; constructor; [done|].
  apply Forall_forall. intros x Hx. apply elem_of_replicate in Hx as [-> _].
  unfold hit_le. simpl. lia.
Qed.

Lemma knn_sorted (index : IndexFlatL2) (k : nat) (q : list Z) :
  StronglySorted hit_le (knn index k q).
Proof. apply scan_sorted, empty_slots_sorted. Qed.

Lemma length_knn (index : IndexFlatL2) (k : nat) (q : list Z) :
  length (knn index k q) = k.
Proof. unfold knn. by rewrite length_scan, length_replicate. Qed.

Lemma add_result_slots (lo hi : Z) (c : hit) (h : list hit) :
  Forall (slot_ok lo hi) h -> StronglySorted hit_le h ->
  lo <= c.2 < hi ->
  Forall (slot_ok lo hi) (add_result c h).
Proof.
  intros Hh Hs Hc. unfold add_result.
  destruct (last h) as [top|] eqn:Hlast; [|done].
  destruct (Z.ltb_spec c.1 top.1) as [Hlt|]; [|done].
  apply last_Some in Hlast as [h' ->]. rewrite removelast_last.
  apply Forall_app in Hh as [Hh' Htop].
  apply Forall_forall. intros x Hx.
  apply elem_of_insert_hit in Hx as [->|Hx].
  - right. split; [done|].
    apply Forall_inv in Htop. destruct Htop as [->|[_ ?]]; simpl in *; lia.
  - rewrite Forall_forall in Hh'. by apply Hh'.
Qed.

Lemma scan_slots (q : list Z) (ys : list (list Z)) :
  forall (lo label : Z) (h : list hit),
    Forall (slot_ok lo label) h -> StronglySorted hit_le h -> lo <= label ->
    Forall (slot_ok lo (label + Z.of_nat (length ys))) (scan q label ys h).
Proof.
  induction ys as [|y ys IH]; intros lo label h Hh Hs Hlo; cbn [scan length].
  - by rewrite Z.add_0_r.
  - replace (label + Z.of_nat (S (length ys)))
      with ((label + 1) + Z.of_nat (length ys)) by lia.
    apply IH; [|by apply add_result_sorted|lia].
    apply add_result_slots; [|done|simpl; lia].
    eapply Forall_impl; [exact Hh|]. unfold slot_ok. intros x [?|[? ?]]; [by left|right; lia].
Qed.

Lemma knn_slots (index : IndexFlatL2) (k : nat) (q : list Z) :
  Forall (slot_ok 0 (Z.of_nat (ntotal index))) (knn index k q).
Proof.
  unfold knn, ntotal.
  apply (scan_slots q (index_xb index) 0 0); [|apply empty_slots_sorted|done].
  apply Forall_forall. intros x Hx. apply elem_of_replicate in Hx as [-> _]. by left.
Qed.

End handler.

(** ** From the arrays of [index.search] to the result lists *)

Lemma mapM_result_map {A B C} (f : B -> result C) (g : A -> B) (l : list A) :
  mapM f (map g l) = mapM (fun x => f (g x)) l.
Proof. induction l as [|x l IH]; simpl; [done|]. by rewrite IH. Qed.

Lemma mapM_result_ext {A B} (f g : A -> result B) (l : list A) :
  (forall x, f x = g x) -> mapM f l = mapM g l.
Proof. intros H. induction l as [|x l IH]; simpl; [done|]. by rewrite H, IH. Qed.

Lemma mapM_result_ret {A B} (f : A -> B) (l : list A) :
  mapM (fun x => Ok (f x)) l = Ok (map f l).
Proof. induction l as [|x l IH]; simpl; [done|]. by rewrite IH. Qed.

Lemma mapM_result_length {A B} (f : A -> result B) (l : list A) (l' : list B) :
  mapM f l = Ok l' -> length l' = length l.
Proof.
  revert l'. induction l as [|x l IH]; intros l'; simpl.
  - by intros [= <-].
  - destruct (f x); simpl; [|done].
    destruct (mapM f l) as [ys|]; simpl; [|done].
    intros [= <-]. simpl. by rewrite (IH ys).
Qed.

Lemma mapM_result_Forall2 {A B} (f : A -> result B) (l : list A) (l' : list B) :
  mapM f l = Ok l' -> Forall2 (fun x y => f x = Ok y) l l'.
Proof.
  revert l'. induction l as [|x l IH]; intros l'; simpl.
  - intros [= <-]. constructor.
  - destruct (f x) as [y|] eqn:Hy; simpl; [|done].
    destruct (mapM f l) as [ys|]; simpl; [|done].
    intros [= <-]. constructor; [done|]. by apply IH.
Qed.

Lemma result_bind_ret {A} (m : result A) : (m ≫= mret) = m.
Proof. by destruct m. Qed.

Lemma faiss_search_inv (index : faiss.IndexFlatL2) (x : ndarray) (k : Z)
    (distances indices : ndarray) :
  faiss.search index x k = Ok (distances, indices) ->
  0 < k /\ shape1 x = faiss.index_d index /\
  rows distances = map (map fst) (map (faiss.knn index (Z.to_nat k)) (rows x)) /\
  rows indices = map (map snd) (map (faiss.knn index (Z.to_nat k)) (rows x)).
Proof.
  unfold faiss.search. case_bool_decide; simpl; [|done].
  destruct (Z.ltb_spec 0 k); simpl; [|done].
  by intros [= <- <-].
Qed.

Lemma faiss_search_ok (index : faiss.IndexFlatL2) (x : ndarray) (k : Z) :
  shape1 x = faiss.index_d index -> 0 < k ->
  faiss.search index x k
  = Ok (NDArray (Z.to_nat k)
          (map (map fst) (map (faiss.knn index (Z.to_nat k)) (rows x))),
        NDArray (Z.to_nat k)
          (map (map snd) (map (faiss.knn index (Z.to_nat k)) (rows x)))).
Proof.
  intros Hd Hk. unfold faiss.search. rewrite bool_decide_true by done. simpl.
  destruct (Z.ltb_spec 0 k); [done|lia].
Qed.

(** The loop bodies, once the distance at position [i] is known. *)
Lemma paired_loop {B} (g : Z * Z -> result B) (body : Z -> Z -> list B -> result (list B))
    (hits : list faiss.hit) :
  (forall i idx d results, getitem (map fst hits) i = Ok d ->
     body i idx results = (b ← g (idx, d); mret (results ++ [b]))) ->
  for_enumerate 0 (map snd hits) body [] = mapM g (map swap_hit hits).
Proof.
  intros Hbody.
  pose proof (for_enumerate_paired g (fun b => b) body (map fst hits) hits [] []
                eq_refl Hbody) as Hloop.
  change (Z.of_nat (length (@nil (Z * Z)))) with 0 in Hloop. rewrite Hloop.
  rewrite mapM_result_map.
  rewrite (mapM_result_ext _ (fun h => g (swap_hit h))).
  2:{ intros h. apply result_bind_ret. }
  apply result_bind_ret.
Qed.

Lemma neighbours_spec (index : faiss.IndexFlatL2) (x : ndarray) (k : Z)
    (v : list Z) (rest : list (list Z)) :
  rows x = v :: rest -> shape1 x = faiss.index_d index -> 0 < k ->
  neighbours index x k = Ok (map swap_hit (faiss.knn index (Z.to_nat k) v)).
Proof.
  intros Hrows Hd Hk. unfold neighbours.
  rewrite (faiss_search_ok _ _ _ Hd Hk), Hrows. simpl.
  rewrite (paired_loop (fun n => Ok n)).
  - by rewrite mapM_result_ret, map_id.
  - intros i idx d results Hget. by rewrite Hget.
Qed.

(** [search] is the encoder, then the neighbours, then one sentence lookup
    per neighbour. *)
Lemma search_via_neighbours (query_text : str) (model : SentenceTransformer)
    (index : faiss.IndexFlatL2) (sentences : list str) (top_k : Z) (x : ndarray) :
  encode model [query_text] = Ok x ->
  search query_text model index sentences top_k
  = (ns ← neighbours index x top_k; mapM (sentence_of sentences) ns).
Proof.
  intros Henc. unfold search, neighbours. rewrite Henc. simpl.
  destruct (faiss.search index x top_k) as [[distances indices]|e] eqn:Hs; [|done].
  simpl. apply faiss_search_inv in Hs as (Hk & Hd & HD & HI).
  rewrite HD, HI. destruct (rows x) as [|v rest]; [done|]. simpl.
  rewrite (paired_loop (sentence_of sentences)).
  2:{ intros i idx d results Hget. unfold sentence_of. simpl.
      destruct (getitem sentences idx); simpl; [|done]. by rewrite Hget. }
  rewrite (paired_loop (fun n => Ok n)).
  2:{ intros i idx d results Hget. by rewrite Hget. }
  by rewrite mapM_result_ret, map_id.
Qed.

(** ** Building the index *)

Lemma create_faiss_index_spec (embeddings : ndarray) :
  create_faiss_index embeddings
  = Ok (faiss.Index (shape1 embeddings) (rows embeddings)).
Proof.
  unfold create_faiss_index, faiss.add, faiss.new. simpl.
  by rewrite bool_decide_true.
Qed.

Lemma sorted_lookup {A} (R : A -> A -> Prop) (l : list A) :
  StronglySorted R l ->
  forall (i j : nat) (a b : A),
    (i < j)%nat -> l !! i = Some a -> l !! j = Some b -> R a b.
Proof.
  induction 1 as [|x l Hs IH Hx]; intros i j a b Hij Ha Hb; [done|].
  destruct j as [|j]; [lia|]. simpl in Hb.
  destruct i as [|i]; simpl in Ha.
  - injection Ha as <-. rewrite Forall_forall in Hx.
    apply Hx. by eapply list_elem_of_lookup_2.
  - apply (IH i j); [lia|done..].
Qed.

(** C1. For every index built from a matrix, every query vector and every
    k > 0, the (id, distance) pairs of [search] come in ascending distance,
    equal distances in ascending id; they are a function of the stored rows,
    the query vector and k alone, and [search] reports them in that order
    with the sentence of each id. *)
Theorem search_sorted_by_distance_then_id
    (M : ndarray) (index : faiss.IndexFlatL2) (model : SentenceTransformer)
    (query_text : str) (v : list Z) (sentences : list str) (k : Z) :
  create_faiss_index M = Ok index ->
  encode model [query_text] = Ok (NDArray (shape1 M) [v]) ->
  0 < k ->
  exists hits : list (Z * Z),
    neighbours index (NDArray (shape1 M) [v]) k = Ok hits /\
    hits = map swap_hit
             (faiss.scan v 0 (rows M) (replicate (Z.to_nat k) faiss.empty_slot)) /\
    (forall (i j : nat) (a b : Z * Z),
       (i < j)%nat -> hits !! i = Some a -> hits !! j = Some b ->
       a.2 < b.2 \/ (a.2 = b.2 /\ a.1 <= b.1)) /\
    search query_text model index sentences k
    = mapM (sentence_of sentences) hits.
Proof.
  intros Hbuild Henc Hk.
  rewrite create_faiss_index_spec in Hbuild. injection Hbuild as <-.
  eexists. split; [|split; [|split]].
  - by apply (neighbours_spec _ _ _ v []).
  - done.
  - intros i j a b Hij Ha Hb.
    rewrite list_lookup_fmap in Ha, Hb.
    destruct (faiss.knn _ _ _ !! i) as [a'|] eqn:Ha'; [|done].
    destruct (faiss.knn _ _ _ !! j) as [b'|] eqn:Hb'; [|done].
    injection Ha as <-. injection Hb as <-.
    exact (sorted_lookup _ _ (knn_sorted _ _ _) i j a' b' Hij Ha' Hb').
  - rewrite (search_via_neighbours _ _ _ _ _ _ Henc).
    by rewrite (neighbours_spec _ _ _ v []).
Qed.

Lemma search_sorted_by_distance_then_id_witness :
  exists hits : list (Z * Z),
    neighbours sample_index (NDArray 2 [[1; 1]]) 3 = Ok hits /\
    hits = map swap_hit
             (faiss.scan [1; 1] 0 (rows sample_matrix)
                (replicate (Z.to_nat 3) faiss.empty_slot)) /\
    (forall (i j : nat) (a b : Z * Z),
       (i < j)%nat -> hits !! i = Some a -> hits !! j = Some b ->
       a.2 < b.2 \/ (a.2 = b.2 /\ a.1 <= b.1)) /\
    search (u "Good morning") (constant_encoder [1; 1]) sample_index
      sample_sentences 3
    = mapM (sentence_of sample_sentences) hits.
Proof.
  apply (search_sorted_by_distance_then_id sample_matrix sample_index
           (constant_encoder [1; 1]) (u "Good morning") [1; 1]
           sample_sentences 3).
  - reflexivity.
  - reflexivity.
  - lia.
Defined.

(** ** How many slots are filled *)

Section padding.
Import faiss.

Lemma insert_hit_before_empty (c : hit) (real : list hit) (p : nat) :
  c.1 < FLT_MAX ->
  insert_hit c (real ++ replicate p empty_slot)
  = insert_hit c real ++ replicate p empty_slot.
Proof.
  intros Hc. induction real as [|x real IH]; simpl.
  - destruct p as [|p]; simpl; [done|].
    unfold cmp2. simpl. destruct (Z.ltb_spec c.1 FLT_MAX); [done|lia].
  - destruct (cmp2 x c); [done|]. by rewrite IH.
Qed.

Lemma add_result_fills (c : hit) (real : list hit) (p : nat) :
  c.1 < FLT_MAX ->
  add_result c (real ++ replicate (S p) empty_slot)
  = insert_hit c real ++ replicate p empty_slot.
Proof.
  intros Hc. unfold add_result.
  rewrite replicate_S_end, app_assoc, last_snoc, removelast_last. simpl.
  destruct (Z.ltb_spec c.1 FLT_MAX); [|lia].
  by apply insert_hit_before_empty.
Qed.

Lemma add_result_full (c : hit) (real : list hit) :
  c.1 < FLT_MAX -> Forall (fun x => x.1 < FLT_MAX) real ->
  Forall (fun x => x.1 < FLT_MAX) (add_result c real).
Proof.
  intros Hc Hreal. unfold add_result.
  destruct (last real) as [top|] eqn:Hlast; [|done].
  destruct (c.1 <? top.1); [|done].
  apply last_Some in Hlast as [h' ->]. rewrite removelast_last.
  apply Forall_app in Hreal as [Hh' _].
  apply Forall_forall. intros x Hx.
  apply elem_of_insert_hit in Hx as [->|Hx]; [done|].
  rewrite Forall_forall in Hh'. by apply Hh'.
Qed.

Lemma scan_fills (q : list Z) (ys : list (list Z)) :
  Forall (fun y => fvec_L2sqr q y < FLT_MAX) ys ->
  forall (label : Z) (real : list hit) (p : nat),
    Forall (fun x => x.1 < FLT_MAX) real ->
    exists real' : list hit,
      scan q label ys (real ++ replicate p empty_slot)
      = real' ++ replicate (p - length ys) empty_slot /\
      length real' = (length real + Nat.min p (length ys))%nat /\
      Forall (fun x => x.1 < FLT_MAX) real'.
Proof.
  induction 1 as [|y ys Hy Hys IH]; intros label real p Hreal.
  - exists real. simpl. rewrite Nat.sub_0_r, Nat.min_0_r, Nat.add_0_r. by repeat split.
  - cbn [scan]. destruct p as [|p].
    + simpl replicate. rewrite app_nil_r.
      destruct (IH (label + 1) (add_result (fvec_L2sqr q y, label) real) 0%nat)
        as (real' & Hscan & Hlen & Hlt).
      { by apply add_result_full. }
      simpl in Hscan. rewrite !app_nil_r in Hscan.
      exists real'. simpl. rewrite ?app_nil_r. split; [done|]. split; [|done].
      rewrite Hlen, length_add_result. simpl. lia.
    + rewrite add_result_fills by done.
      destruct (IH (label + 1) (insert_hit (fvec_L2sqr q y, label) real) p)
        as (real' & Hscan & Hlen & Hlt).
      { apply Forall_forall. intros x Hx.
        apply elem_of_insert_hit in Hx as [->|Hx]; [done|].
        rewrite Forall_forall in Hreal. by apply Hreal. }
      exists real'. split; [done|]. split; [|done].
      rewrite Hlen, length_insert_hit. simpl. lia.
Qed.

Lemma knn_fills (index : IndexFlatL2) (k : nat) (q : list Z) :
  Forall (fun y => fvec_L2sqr q y < FLT_MAX) (index_xb index) ->
  exists real : list hit,
    knn index k q = real ++ replicate (k - ntotal index) empty_slot /\
    length real = Nat.min k (ntotal index) /\
    Forall (fun x => 0 <= x.2 < Z.of_nat (ntotal index)) real.
Proof.
  intros Hfin.
  destruct (scan_fills q (index_xb index) Hfin 0 [] k) as (real & Hscan & Hlen & Hlt).
  { constructor. }
  exists real. split; [exact Hscan|]. split; [exact Hlen|].
  pose proof (knn_slots index k q) as Hslots.
  unfold knn in Hslots. simpl in Hscan. rewrite Hscan in Hslots.
  apply Forall_app in Hslots as [Hslots _].
  rewrite Forall_forall in Hslots, Hlt. apply Forall_forall. intros x Hx.
  destruct (Hslots x Hx) as [->|[? _]]; [|done].
  specialize (Hlt _ Hx). simpl in Hlt. lia.
Qed.

End padding.

Lemma mapM_result_total {A B} (f : A -> result B) (l : list A) :
  Forall (fun x => exists y, f x = Ok y) l -> exists l', mapM f l = Ok l'.
Proof.
  induction 1 as [|x l [y Hy] _ [l' IH]]; simpl.
  - by eexists.
  - rewrite Hy, IH. by eexists.
Qed.

(** C2, as the code has it. For an index over N > 0 vectors, a query vector
    whose distances to the stored vectors are below [FLT_MAX], k > 0 and one
    sentence per vector, the list of (id, distance) pairs has exactly k
    elements (not min(k, N)): first min(k, N) pairs with ids in [0, N),
    then, when k exceeds N, k - N padding pairs with id -1 and distance
    [FLT_MAX].  When k is at most N, [search] returns exactly k results,
    the sentence of each id with its distance. *)
Theorem search_returns_k_results
    (M : ndarray) (index : faiss.IndexFlatL2) (model : SentenceTransformer)
    (query_text : str) (v : list Z) (sentences : list str) (k : Z) :
  create_faiss_index M = Ok index ->
  encode model [query_text] = Ok (NDArray (shape1 M) [v]) ->
  (0 < shape0 M)%nat ->
  0 < k ->
  length sentences = shape0 M ->
  Forall (fun y => faiss.fvec_L2sqr v y < faiss.FLT_MAX) (rows M) ->
  exists real : list (Z * Z),
    neighbours index (NDArray (shape1 M) [v]) k
    = Ok (real ++ replicate (Z.to_nat k - shape0 M) (-1, faiss.FLT_MAX)) /\
    length real = Nat.min (Z.to_nat k) (shape0 M) /\
    Forall (fun n => 0 <= n.1 < Z.of_nat (shape0 M)) real /\
    ((Z.to_nat k <= shape0 M)%nat ->
     exists results : list (str * Z),
       search query_text model index sentences k = Ok results /\
       Forall2 (fun n r => getitem sentences n.1 = Ok r.1 /\ r.2 = n.2)
         real results).
Proof.
  intros Hbuild Henc HN Hk Hlen Hfin.
  rewrite create_faiss_index_spec in Hbuild. injection Hbuild as <-.
  destruct (knn_fills (faiss.Index (shape1 M) (rows M)) (Z.to_nat k) v Hfin)
    as (real & Hknn & Hreal & Hids).
  assert (neighbours (faiss.Index (shape1 M) (rows M)) (NDArray (shape1 M) [v]) k
          = Ok (map swap_hit real
                ++ replicate (Z.to_nat k - shape0 M) (-1, faiss.FLT_MAX))) as Hn.
  { rewrite (neighbours_spec _ _ _ v []) by done.
    rewrite Hknn, map_app. f_equal. f_equal.
    change (map swap_hit) with (fmap (M:=list) swap_hit). by rewrite fmap_replicate. }
  assert (Forall (fun n : Z * Z => 0 <= n.1 < Z.of_nat (shape0 M))
            (map swap_hit real)) as Hids'.
  { apply Forall_forall. intros n Hn'.
    change (map swap_hit real) with (swap_hit <$> real) in Hn'.
    apply list_elem_of_fmap in Hn' as (x & -> & Hx).
    rewrite Forall_forall in Hids. exact (Hids x Hx). }
  exists (map swap_hit real). split; [exact Hn|].
  split; [by rewrite length_map|]. split; [exact Hids'|].
  intros Hle.
  destruct (mapM_result_total (sentence_of sentences) (map swap_hit real))
    as [results Hres].
  { eapply Forall_impl; [exact Hids'|]. intros n Hn'. unfold sentence_of.
    cbv beta in Hn'.
    destruct (getitem_in_range sentences n.1) as [s Hs]; [lia|].
    rewrite Hs. by eexists. }
  exists results. split.
  - rewrite (search_via_neighbours _ _ _ _ _ _ Henc), Hn. simpl.
    replace (Z.to_nat k - shape0 M)%nat with 0%nat by lia.
    simpl. by rewrite app_nil_r.
  - apply mapM_result_Forall2 in Hres.
    eapply Forall2_impl; [exact Hres|].
    intros n r. unfold sentence_of.
    destruct (getitem sentences n.1) as [s|]; simpl; [|done].
    by intros [= <-].
Qed.

Lemma search_returns_k_results_witness :
  exists real : list (Z * Z),
    neighbours sample_index (NDArray 2 [[0; 0]]) 2
    = Ok (real ++ replicate (Z.to_nat 2 - 2) (-1, faiss.FLT_MAX)) /\
    length real = Nat.min (Z.to_nat 2) 2 /\
    Forall (fun n => 0 <= n.1 < Z.of_nat 2) real /\
    ((Z.to_nat 2 <= 2)%nat ->
     exists results : list (str * Z),
       search (u "Hello world") (constant_encoder [0; 0]) sample_index
         sample_sentences 2 = Ok results /\
       Forall2 (fun n r => getitem sample_sentences n.1 = Ok r.1 /\ r.2 = n.2)
         real results).
Proof.
  apply (search_returns_k_results sample_matrix sample_index
           (constant_encoder [0; 0]) (u "Hello world") [0; 0]
           sample_sentences 2).
  - reflexivity.
  - reflexivity.
  - vm_compute. lia.
  - lia.
  - reflexivity.
  - repeat constructor.
Defined.

(** C2 as stated fails: over the two-vector sample index, k = 3 gives three
    neighbours, not min(3, 2) = 2, and the third has id -1, outside [0, 2);
    [search] returns three results, the last one the padding entry reported
    with the last sentence. *)
Lemma search_cardinality_counterexample :
  neighbours sample_index (NDArray 2 [[0; 0]]) 3
  = Ok [(0, 0); (1, 2); (-1, faiss.FLT_MAX)] /\
  search (u "Hello world") (constant_encoder [0; 0]) sample_index
    sample_sentences 3
  = Ok [(u "Hallo Welt", 0); (u "Guten Morgen", 2);
        (u "Guten Morgen", faiss.FLT_MAX)] /\
  ~ (exists hits : list (Z * Z),
       neighbours sample_index (NDArray 2 [[0; 0]]) 3 = Ok hits /\
       length hits = Nat.min 3 (faiss.ntotal sample_index) /\
       Forall (fun n => 0 <= n.1 < Z.of_nat (faiss.ntotal sample_index)) hits).
Proof.
  split; [reflexivity|]. split; [reflexivity|].
  intros (hits & Hhits & Hlen & _).
  vm_compute in Hhits. injection Hhits as <-. discriminate Hlen.
Qed.

(** ** Searching with a stored vector *)

Section nearest.
Import faiss.






End nearest.




(** ** Non-positive k *)

(** C6, as the code has it. [search] has no guard on k: it hands k to the
    index unchanged, and the index rejects every k <= 0.  For every index
    and every query vector of its dimension, [search] with k <= 0 raises
    [AssertionError]; it does not return the empty list. *)
Theorem search_rejects_nonpositive_k
    (index : faiss.IndexFlatL2) (model : SentenceTransformer)
    (query_text : str) (x : ndarray) (sentences : list str) (k : Z) :
  encode model [query_text] = Ok x ->
  shape1 x = faiss.index_d index ->
  k <= 0 ->
  neighbours index x k = Raise "AssertionError" /\
  search query_text model index sentences k = Raise "AssertionError".
Proof.
  intros Henc Hd Hk.
  assert (faiss.search index x k = Raise "AssertionError") as Hs.
  { unfold faiss.search. rewrite bool_decide_true by done. simpl.
    destruct (Z.ltb_spec 0 k); [lia|done]. }
  split.
  - unfold neighbours. by rewrite Hs.
  - unfold search. rewrite Henc. simpl. by rewrite Hs.
Qed.

Lemma search_rejects_nonpositive_k_witness :
  neighbours sample_index (NDArray 2 [[0; 0]]) 0 = Raise "AssertionError" /\
  search (u "Hello world") (constant_encoder [0; 0]) sample_index
    sample_sentences 0 = Raise "AssertionError".
Proof.
  apply (search_rejects_nonpositive_k sample_index (constant_encoder [0; 0])
           (u "Hello world") (NDArray 2 [[0; 0]]) sample_sentences 0).
  - reflexivity.
  - reflexivity.
  - lia.
Defined.

(** C6 as stated fails: over the sample index, [search] with k = 0 and with
    k = -1 raises instead of returning the empty list. *)
Lemma search_nonpositive_k_counterexample :
  search (u "Hello world") (constant_encoder [0; 0]) sample_index
    sample_sentences 0 <> Ok [] /\
  search (u "Hello world") (constant_encoder [0; 0]) sample_index
    sample_sentences (-1) <> Ok [] /\
  search (u "Hello world") (constant_encoder [0; 0]) sample_index
    sample_sentences (-1) = Raise "AssertionError".
Proof. repeat split; try discriminate. Qed.

(** ** Building never fails *)

(** C7, as the code has it. [create_faiss_index] validates nothing: on every
    matrix, the one with zero rows included, it succeeds, and the index it
    returns has the matrix's column count as dimension and its row count as
    element count. *)
Theorem create_faiss_index_total (M : ndarray) :
  exists index : faiss.IndexFlatL2,
    create_faiss_index M = Ok index /\
    faiss.index_d index = shape1 M /\
    faiss.ntotal index = shape0 M.
Proof. eexists. split; [apply create_faiss_index_spec|]. by split. Qed.

(** C7 as stated fails on the matrix with zero rows and two columns:
    [create_faiss_index] returns an index with no element instead of
    failing with [EmptyCorpusError]. *)
Lemma create_faiss_index_empty_counterexample :
  shape0 (NDArray 2 []) = 0%nat /\
  create_faiss_index (NDArray 2 []) = Ok (faiss.Index 2 []) /\
  create_faiss_index (NDArray 2 []) <> Raise "EmptyCorpusError".
Proof. repeat split; discriminate. Qed.

(** ** Loading the knowledge base *)

Lemma load_knowledge_base_missing (directory : string) (w : world) :
  files w !! os_path.join directory "embeddings.npy" = None \/
  files w !! os_path.join directory "sentences.txt" = None ->
  load_knowledge_base directory w = (Ok None, w).
Proof.
  intros Hmiss. unfold load_knowledge_base, mbind, py_mbind, py_bind, os_path.exists_.
  destruct Hmiss as [-> | ->].
  - by rewrite (bool_decide_false (is_Some None)) by (intros [? ?]; done).
  - rewrite (bool_decide_false (is_Some None)) by (intros [? ?]; done).
    by rewrite orb_true_r.
Qed.

Lemma load_knowledge_base_present (directory : string) (w : world)
    (a : ndarray) (content : str) :
  files w !! os_path.join directory "embeddings.npy" = Some (NpyFile a) ->
  files w !! os_path.join directory "sentences.txt" = Some (TextFile content) ->
  load_knowledge_base directory w
  = (Ok (Some (a, map strip (io.split_keepends [] (io.universal_newlines content)))), w).
Proof.
  intros Hnpy Htxt.
  unfold load_knowledge_base, mbind, py_mbind, py_bind, os_path.exists_,
    np.load, io.readlines.
  rewrite Hnpy, Htxt.
  rewrite !bool_decide_true by (by eexists). simpl.
  by rewrite Hnpy, Htxt.
Qed.

(** C8, as the code has it. [load_knowledge_base] never compares the
    number of sentences with the number of rows, and raises neither
    [IntegrityError] nor [LoadError].  When one of the two files is missing
    it returns the pair of Nones.  When both are present and hold a saved
    array and a text, it returns the stored matrix and the stripped lines of
    the sentence file, whatever their counts. *)
Theorem load_knowledge_base_unchecked (directory : string) (w : world) :
  (files w !! os_path.join directory "embeddings.npy" = None \/
   files w !! os_path.join directory "sentences.txt" = None ->
   load_knowledge_base directory w = (Ok None, w)) /\
  (forall (a : ndarray) (content : str),
     files w !! os_path.join directory "embeddings.npy" = Some (NpyFile a) ->
     files w !! os_path.join directory "sentences.txt" = Some (TextFile content) ->
     load_knowledge_base directory w
     = (Ok (Some (a, map strip
                       (io.split_keepends [] (io.universal_newlines content)))),
        w)) /\
  fst (load_knowledge_base directory w) <> Raise "IntegrityError" /\
  fst (load_knowledge_base directory w) <> Raise "LoadError".
Proof.
  split; [apply load_knowledge_base_missing|].
  split; [apply load_knowledge_base_present|].
  unfold load_knowledge_base, mbind, py_mbind, py_bind, os_path.exists_,
    np.load, io.readlines. simpl.
  destruct (negb _ || negb _); [done|].
  destruct (files w !! os_path.join directory "embeddings.npy")
    as [[[|? ?]|?|[|? ?]]|]; try done.
  by destruct (files w !! os_path.join directory "sentences.txt") as [[?|?|?]|].
Qed.

Lemma load_knowledge_base_unchecked_witness :
  load_knowledge_base "knowledge_base" mismatched_world
  = (Ok (Some (NDArray 2 [[0; 0]; [1; 1]; [2; 2]],
               [u "Hallo Welt"; u "Guten Morgen"])),
     mismatched_world).
Proof.
  apply (proj1 (proj2 (load_knowledge_base_unchecked "knowledge_base"
                         mismatched_world))
           (NDArray 2 [[0; 0]; [1; 1]; [2; 2]])
           (u "Hallo Welt" ++ [LF] ++ u "Guten Morgen" ++ [LF])).
  - reflexivity.
  - reflexivity.
Defined.

(** C8 as stated fails twice.  With two sentences and a three-row matrix on
    disk, the load succeeds and returns both, their counts different,
    instead of failing with [IntegrityError]; with no file on disk it
    returns the pair of Nones instead of failing with [LoadError]. *)
Lemma load_knowledge_base_counterexample :
  (exists (a : ndarray) (sentences : list str),
     fst (load_knowledge_base "knowledge_base" mismatched_world)
     = Ok (Some (a, sentences)) /\
     length sentences = 2%nat /\ shape0 a = 3%nat) /\
  fst (load_knowledge_base "knowledge_base" mismatched_world)
  <> Raise "IntegrityError" /\
  fst (load_knowledge_base "knowledge_base" empty_world) = Ok None /\
  fst (load_knowledge_base "knowledge_base" empty_world) <> Raise "LoadError".
Proof.
  split; [|split; [|split]].
  - eexists _, _. split; [reflexivity|]. by split.
  - discriminate.
  - reflexivity.
  - discriminate.
Qed.

(** ** The query service *)

(** C4, as the code has it. The guard of [search_endpoint] is [not
    query_text]: a request whose query is absent or the empty string is
    answered with the empty list, and neither the encoder nor the index is
    invoked (the world, call log included, is unchanged).  Every other
    query text, a whitespace-only one included, is passed to the encoder. *)
Theorem search_endpoint_short_circuit
    (app : App) (data : gmap string str) (w : world) :
  (data !! "query"%string = None \/ data !! "query"%string = Some [] ->
   search_endpoint app data w = (Ok [], w)) /\
  (forall q : str,
     data !! "query"%string = Some q -> q <> [] ->
     exists later : list call,
       calls (snd (search_endpoint app data w))
       = calls w ++ EncoderCall [q] :: later).
Proof.
  split.
  - intros [Hq|Hq]; unfold search_endpoint; rewrite Hq; reflexivity.
  - intros q Hq Hne. unfold search_endpoint. rewrite Hq. simpl.
    rewrite bool_decide_false by done.
    unfold mbind, py_mbind, py_bind, MODEL_encode, FAISS_INDEX_search, py_lift.
    destruct (encode (MODEL app) [q]) as [x|e]; simpl.
    + destruct (faiss.search (FAISS_INDEX app) x 5) as [[distances indices]|e];
        simpl.
      * exists [IndexSearchCall x 5]. by rewrite <- app_assoc.
      * exists [IndexSearchCall x 5]. by rewrite <- app_assoc.
    + by exists [].
Qed.

Lemma search_endpoint_short_circuit_witness :
  search_endpoint (sample_app (constant_encoder [0; 0])) (query_body []) empty_world
  = (Ok [], empty_world) /\
  exists later : list call,
    calls (snd (search_endpoint (sample_app (constant_encoder [0; 0]))
                  (query_body (u " ")) empty_world))
    = calls empty_world ++ EncoderCall [u " "] :: later.
Proof.
  split.
  - apply (proj1 (search_endpoint_short_circuit
                    (sample_app (constant_encoder [0; 0])) (query_body [])
                    empty_world)).
    right. reflexivity.
  - apply (proj2 (search_endpoint_short_circuit
                    (sample_app (constant_encoder [0; 0])) (query_body (u " "))
                    empty_world) (u " ")).
    + reflexivity.
    + discriminate.
Defined.

(** C4 as stated fails on the whitespace-only query " ": the encoder and
    the index are both invoked and the answer is not the empty list. *)
Lemma search_endpoint_whitespace_counterexample :
  strip (u " ") = [] /\
  calls (snd (search_endpoint (sample_app (constant_encoder [0; 0]))
                (query_body (u " ")) empty_world))
  = [EncoderCall [u " "]; IndexSearchCall (NDArray 2 [[0; 0]]) 5] /\
  fst (search_endpoint (sample_app (constant_encoder [0; 0]))
         (query_body (u " ")) empty_world) <> Ok [].
Proof. split; [reflexivity|]. split; [reflexivity|]. discriminate. Qed.

(** C9, as the code has it. [search_endpoint] wraps nothing: when the
    encoder raises, or the encoder succeeds and the index lookup raises, the
    request ends with that very exception and returns no result list, not
    even a partial one.  No [SearchError] is produced. *)
Theorem search_endpoint_failure_propagates
    (app : App) (data : gmap string str) (w : world) (q : str) :
  data !! "query"%string = Some q ->
  q <> [] ->
  (forall e : exn,
     encode (MODEL app) [q] = Raise e ->
     search_endpoint app data w
     = (Raise e, World (files w) (calls w ++ [EncoderCall [q]]))) /\
  (forall (x : ndarray) (e : exn),
     encode (MODEL app) [q] = Ok x ->
     faiss.search (FAISS_INDEX app) x 5 = Raise e ->
     search_endpoint app data w
     = (Raise e,
        World (files w) ((calls w ++ [EncoderCall [q]]) ++ [IndexSearchCall x 5]))).
Proof.
  intros Hq Hne. unfold search_endpoint. rewrite Hq. simpl.
  rewrite bool_decide_false by done.
  unfold mbind, py_mbind, py_bind, MODEL_encode, FAISS_INDEX_search, py_lift.
  split.
  - intros e ->. reflexivity.
  - intros x e -> Hs. simpl. rewrite Hs. reflexivity.
Qed.

Lemma search_endpoint_failure_propagates_witness :
  search_endpoint (sample_app (failing_encoder "RuntimeError"))
    (query_body (u "Hello")) empty_world
  = (Raise "RuntimeError", World ∅ [EncoderCall [u "Hello"]]) /\
  search_endpoint (sample_app (constant_encoder [0; 0; 0]))
    (query_body (u "Hello")) empty_world
  = (Raise "AssertionError",
     World ∅ [EncoderCall [u "Hello"]; IndexSearchCall (NDArray 3 [[0; 0; 0]]) 5]).
Proof.
  split.
  - apply (proj1 (search_endpoint_failure_propagates
                    (sample_app (failing_encoder "RuntimeError"))
                    (query_body (u "Hello")) empty_world (u "Hello")
                    eq_refl ltac:(discriminate)) "RuntimeError").
    reflexivity.
  - apply (proj2 (search_endpoint_failure_propagates
                    (sample_app (constant_encoder [0; 0; 0]))
                    (query_body (u "Hello")) empty_world (u "Hello")
                    eq_refl ltac:(discriminate))
             (NDArray 3 [[0; 0; 0]]) "AssertionError").
    + reflexivity.
    + reflexivity.
Defined.

(** C9 as stated fails: when the encoder raises [RuntimeError], the request
    ends with [RuntimeError], not with [SearchError]. *)
Lemma search_endpoint_search_error_counterexample :
  fst (search_endpoint (sample_app (failing_encoder "RuntimeError"))
         (query_body (u "Hello")) empty_world) = Raise "RuntimeError" /\
  fst (search_endpoint (sample_app (failing_encoder "RuntimeError"))
         (query_body (u "Hello")) empty_world) <> Raise "SearchError".
Proof. split; [reflexivity|discriminate]. Qed.

(** ** The sentence file *)

Lemma universal_newlines_id (s : str) : CR ∉ s -> io.universal_newlines s = s.
Proof.
  induction s as [|c s IH]; intros Hcr; simpl; [done|].
  apply not_elem_of_cons in Hcr as [Hc Hs].
  destruct (N.eqb_spec c CR) as [->|_]; [done|].
  by rewrite IH.
Qed.

Lemma split_keepends_line (s rest cur : str) :
  LF ∉ s ->
  io.split_keepends cur (s ++ LF :: rest)
  = (cur ++ s ++ [LF]) :: io.split_keepends [] rest.
Proof.
  revert cur. induction s as [|c s IH]; intros cur Hlf; simpl.
  - done.
  - apply not_elem_of_cons in Hlf as [Hc Hs].
    destruct (N.eqb_spec c LF) as [->|_]; [done|].
    rewrite (IH _ Hs). by rewrite <- app_assoc.
Qed.

(** The text that [write_sentences] produces. *)
Lemma split_keepends_lines (l : list str) :
  Forall (fun s => LF ∉ s) l ->
  io.split_keepends [] (concat (map (fun s => s ++ [LF]) l))
  = map (fun s => s ++ [LF]) l.
Proof.
  induction 1 as [|s l Hs _ IH]; simpl; [done|].
  rewrite <- app_assoc. simpl.
  by rewrite (split_keepends_line s _ [] Hs), IH.
Qed.

Lemma lines_without_CR (l : list str) :
  Forall (fun s => CR ∉ s) l -> CR ∉ concat (map (fun s => s ++ [LF]) l).
Proof.
  induction 1 as [|s l Hs _ IH]; simpl.
  - apply not_elem_of_nil.
  - rewrite !elem_of_app, list_elem_of_singleton.
    intros [[?|?]|?]; [done|done|done].
Qed.

Lemma strip_line (s : str) : strip (s ++ [LF]) = strip s.
Proof. unfold strip, rstrip. by rewrite rev_app_distr. Qed.

Lemma for_each_write (path : string) (l : list str) :
  forall (w : world) (content : str),
    files w !! path = Some (TextFile content) ->
    for_each l (fun sentence => io.write path (sentence ++ [LF])) w
    = (Ok (),
       World (<[path := TextFile (content ++ concat (map (fun s => s ++ [LF]) l))]>
                (files w))
             (calls w)).
Proof.
  induction l as [|s l IH]; intros w content Hw.
  - simpl. rewrite app_nil_r, insert_id by done. by destruct w.
  - cbn [for_each]. unfold mbind, py_mbind, py_bind. unfold io.write at 1.
    rewrite Hw.
    rewrite (IH _ (content ++ s ++ [LF])) by apply lookup_insert_eq.
    simpl. by rewrite insert_insert_eq, <- !app_assoc.
Qed.

Lemma write_sentences_spec (path : string) (l : list str) (w : world) :
  write_sentences path l w
  = (Ok (),
     World (<[path := TextFile (concat (map (fun s => s ++ [LF]) l))]> (files w))
           (calls w)).
Proof.
  unfold write_sentences, mbind, py_mbind, py_bind. unfold io.open_w at 1.
  rewrite (for_each_write path l _ []) by apply lookup_insert_eq.
  simpl. by rewrite insert_insert_eq.
Qed.

(** C10, as the code has it. For every list of sentences that contain no
    line break (LF or CR), what [load_knowledge_base] reads back from the
    file written by [create_embeddings.py] is the list of the stripped
    sentences: loaded sentence i is [strip] of saved sentence i.  The round
    trip is therefore the identity exactly when, in addition, every sentence
    is its own stripped form. *)
Theorem sentences_round_trip
    (w : world) (a : ndarray) (german_sentences : list str) :
  Forall one_line german_sentences ->
  files w !! "knowledge_base/embeddings.npy"%string = Some (NpyFile a) ->
  fst (load_knowledge_base "knowledge_base"
         (snd (write_sentences (os_path.join "knowledge_base" "sentences.txt")
                 german_sentences w)))
  = Ok (Some (a, map strip german_sentences)) /\
  (map strip german_sentences = german_sentences <->
   Forall (fun s => strip s = s) german_sentences).
Proof.
  intros Hlines Hnpy. split.
  - rewrite write_sentences_spec. simpl snd.
    rewrite (load_knowledge_base_present _ _ a
               (concat (map (fun s => s ++ [LF]) german_sentences))).
    + simpl. rewrite universal_newlines_id.
      2:{ apply lines_without_CR. eapply Forall_impl; [exact Hlines|].
          by intros s [_ ?]. }
      rewrite split_keepends_lines.
      2:{ eapply Forall_impl; [exact Hlines|]. by intros s [? _]. }
      rewrite map_map. do 3 f_equal.
      apply map_ext. intros s. apply strip_line.
    + simpl. by rewrite lookup_insert_ne.
    + simpl. apply lookup_insert_eq.
  - clear. induction german_sentences as [|s l IH]; simpl.
    + split; [constructor|done].
    + rewrite Forall_cons, <- IH. split.
      * by intros [= -> ->].
      * by intros [-> ->].
Qed.

Lemma sentences_round_trip_witness :
  fst (load_knowledge_base "knowledge_base"
         (snd (write_sentences (os_path.join "knowledge_base" "sentences.txt")
                 [u " Hallo Welt "; u "Guten Morgen"] mismatched_world)))
  = Ok (Some (NDArray 2 [[0; 0]; [1; 1]; [2; 2]],
              map strip [u " Hallo Welt "; u "Guten Morgen"])) /\
  (map strip [u " Hallo Welt "; u "Guten Morgen"]
   = [u " Hallo Welt "; u "Guten Morgen"] <->
   Forall (fun s => strip s = s) [u " Hallo Welt "; u "Guten Morgen"]).
Proof.
  apply (sentences_round_trip mismatched_world
           (NDArray 2 [[0; 0]; [1; 1]; [2; 2]])
           [u " Hallo Welt "; u "Guten Morgen"]).
  - apply (bool_decide_unpack _). vm_compute. reflexivity.
  - reflexivity.
Defined.

(** C10 as stated fails for a sentence with an embedded newline: saving the
    one sentence "a", LF, "b" and loading gives back the two sentences "a"
    and "b", so loaded sentence 0 is "a" while the stripped form of saved
    sentence 0 is the saved sentence itself. *)
Lemma sentences_round_trip_counterexample :
  fst (load_knowledge_base "knowledge_base"
         (snd (write_sentences (os_path.join "knowledge_base" "sentences.txt")
                 [u "a" ++ [LF] ++ u "b"] mismatched_world)))
  = Ok (Some (NDArray 2 [[0; 0]; [1; 1]; [2; 2]], [u "a"; u "b"])) /\
  strip (u "a" ++ [LF] ++ u "b") = u "a" ++ [LF] ++ u "b" /\
  [u "a"; u "b"] !! 0%nat <> Some (strip (u "a" ++ [LF] ++ u "b")).
Proof. split; [reflexivity|]. split; [reflexivity|]. discriminate. Qed.

(** ** The index file *)

Section persistence.
Import faiss.

Lemma chunks_concat (d : nat) (xb : list (list Z)) :
  Forall (fun y => length y = d) xb -> chunks (length xb) d (concat xb) = xb.
Proof.
  induction 1 as [|y xb Hy _ IH]; simpl; [done|].
  rewrite take_app_length' by done. rewrite drop_app_length' by done.
  by rewrite IH.
Qed.

Lemma length_concat_rows (d : nat) (xb : list (list Z)) :
  Forall (fun y => length y = d) xb ->
  length (concat xb) = (d * length xb)%nat.
Proof.
  induction 1 as [|y xb Hy _ IH]; simpl; [lia|].
  rewrite length_app, IH, Hy. lia.
Qed.

(** An index is well formed when every stored vector has its dimension. *)
Lemma deserialize_serialize (index : IndexFlatL2) :
  Forall (fun y => length y = index_d index) (index_xb index) ->
  deserialize (serialize index) = Ok index.
Proof.
  intros Hwf. destruct index as [d xb]. simpl in Hwf.
  unfold serialize, deserialize, ntotal. simpl index_d. simpl index_xb.
  rewrite Z.eqb_refl. simpl negb.
  destruct (Z.ltb_spec (Z.of_nat d) 0); [lia|].
  destruct (Z.ltb_spec (Z.of_nat (length xb)) 0); [lia|]. simpl orb.
  rewrite (length_concat_rows d xb Hwf).
  destruct (Z.eqb_spec (Z.of_nat (d * length xb))
              (Z.of_nat d * Z.of_nat (length xb))) as [_|Hne]; [|lia].
  simpl negb. rewrite !Nat2Z.id. by rewrite chunks_concat.
Qed.

Lemma read_after_write_index (index : IndexFlatL2) (path : string) (w : world) :
  Forall (fun y => length y = index_d index) (index_xb index) ->
  fst (read_index path (snd (write_index index path w))) = Ok index.
Proof.
  intros Hwf. unfold read_index, write_index. simpl.
  rewrite lookup_insert_eq. simpl. by apply deserialize_serialize.
Qed.

End persistence.

Lemma build_index_main_world (model : SentenceTransformer) (w : world)
    (M : ndarray) (content : str) :
  files w !! "knowledge_base/embeddings.npy"%string = Some (NpyFile M) ->
  files w !! "knowledge_base/sentences.txt"%string = Some (TextFile content) ->
  snd (build_index_main model w)
  = snd (faiss.write_index (faiss.Index (shape1 M) (rows M))
           "knowledge_base/faiss.index" w).
Proof.
  intros Hnpy Htxt. unfold build_index_main.
  unfold mbind at 1. unfold py_mbind, py_bind.
  rewrite (load_knowledge_base_present "knowledge_base" w M content Hnpy Htxt).
  rewrite create_faiss_index_spec.
  unfold mbind, py_mbind, py_bind, py_lift, faiss.write_index. simpl.
  by destruct (search _ _ _ _ _).
Qed.

(** C3. For every embedding matrix M stored in the knowledge base,
    [build_index.py] writes the index built from M to
    [knowledge_base/faiss.index], and the index that [app.py] reads from
    that file is the one that was built: searching the reloaded index gives,
    for every query and every k, the same distances and ids in the same
    order, and the same [search] results, as searching the in-memory index. *)
Theorem persisted_index_searches_alike
    (model : SentenceTransformer) (w : world) (M : ndarray) (content : str) :
  rectangular M ->
  files w !! "knowledge_base/embeddings.npy"%string = Some (NpyFile M) ->
  files w !! "knowledge_base/sentences.txt"%string = Some (TextFile content) ->
  exists index reloaded : faiss.IndexFlatL2,
    create_faiss_index M = Ok index /\
    fst (faiss.read_index "knowledge_base/faiss.index"
           (snd (build_index_main model w))) = Ok reloaded /\
    (forall (x : ndarray) (k : Z),
       faiss.search reloaded x k = faiss.search index x k /\
       neighbours reloaded x k = neighbours index x k) /\
    (forall (query_text : str) (model' : SentenceTransformer)
            (sentences : list str) (k : Z),
       search query_text model' reloaded sentences k
       = search query_text model' index sentences k) /\
    (forall (model' : SentenceTransformer) (dataset : list example)
            (app : App) (w' : world),
       app_startup model' dataset (snd (build_index_main model w)) = (Ok app, w') ->
       FAISS_INDEX app = index).
Proof.
  intros Hrect Hnpy Htxt.
  assert (fst (faiss.read_index "knowledge_base/faiss.index"
                 (snd (build_index_main model w)))
          = Ok (faiss.Index (shape1 M) (rows M))) as Hread.
  { rewrite (build_index_main_world model w M content Hnpy Htxt).
    by apply read_after_write_index. }
  exists (faiss.Index (shape1 M) (rows M)), (faiss.Index (shape1 M) (rows M)).
  split; [apply create_faiss_index_spec|]. split; [exact Hread|].
  split; [done|]. split; [done|].
  intros model' dataset app w' Hstart.
  unfold app_startup in Hstart. unfold mbind at 1 in Hstart.
  unfold py_mbind, py_bind in Hstart.
  destruct (faiss.read_index _ _) as [[reloaded|e] w1] eqn:Hr; [|done].
  simpl in Hread. injection Hread as ->.
  unfold mbind, py_mbind, py_bind, py_lift in Hstart.
  destruct (select_range dataset _) as [selected|e]; [|done].
  simpl in Hstart. by injection Hstart as <- _.
Qed.

Lemma persisted_index_searches_alike_witness :
  exists index reloaded : faiss.IndexFlatL2,
    create_faiss_index sample_matrix = Ok index /\
    fst (faiss.read_index "knowledge_base/faiss.index"
           (snd (build_index_main (constant_encoder [0; 0]) sample_world)))
    = Ok reloaded /\
    (forall (x : ndarray) (k : Z),
       faiss.search reloaded x k = faiss.search index x k /\
       neighbours reloaded x k = neighbours index x k) /\
    (forall (query_text : str) (model' : SentenceTransformer)
            (sentences : list str) (k : Z),
       search query_text model' reloaded sentences k
       = search query_text model' index sentences k) /\
    (forall (model' : SentenceTransformer) (dataset : list example)
            (app : App) (w' : world),
       app_startup model' dataset
         (snd (build_index_main (constant_encoder [0; 0]) sample_world))
       = (Ok app, w') ->
       FAISS_INDEX app = index).
Proof.
  apply (persisted_index_searches_alike (constant_encoder [0; 0]) sample_world
           sample_matrix (u "Hallo Welt" ++ [LF] ++ u "Guten Morgen" ++ [LF])).
  - repeat constructor.
  - reflexivity.
  - reflexivity.
Defined.

(** ** The answers of the query service *)

(** On a non-empty query that the encoder accepts, [search_endpoint]
    answers with one entry per neighbour, in the order of the index, or with
    the first exception met; there is no third outcome. *)
Lemma search_endpoint_via_neighbours
    (app : App) (data : gmap string str) (w : world) (q : str) (x : ndarray) :
  data !! "query"%string = Some q -> q <> [] ->
  encode (MODEL app) [q] = Ok x ->
  fst (search_endpoint app data w)
  = (ns ← neighbours (FAISS_INDEX app) x 5; mapM (answer_of app) ns).
Proof.
  intros Hq Hne Henc. unfold search_endpoint. rewrite Hq. simpl.
  rewrite bool_decide_false by done.
  unfold mbind at 1. unfold py_mbind, py_bind, MODEL_encode. rewrite Henc.
  unfold mbind at 1. unfold py_mbind, py_bind, FAISS_INDEX_search, neighbours.
  destruct (faiss.search (FAISS_INDEX app) x 5) as [[distances indices]|e] eqn:Hs;
    [|done].
  unfold py_lift. simpl.
  apply faiss_search_inv in Hs as (_ & _ & HD & HI). rewrite HD, HI.
  destruct (rows x) as [|v rest]; [done|]. simpl.
  rewrite (paired_loop (answer_of app)).
  2:{ intros i idx d results Hget. unfold answer_of. simpl.
      destruct (getitem (SENTENCES app) idx); simpl; [|done].
      destruct (getitem (ENGLISH_SENTENCES app) idx); simpl; [|done].
      by rewrite Hget. }
  rewrite (paired_loop (fun n => Ok n)).
  2:{ intros i idx d results Hget. by rewrite Hget. }
  by rewrite mapM_result_ret, map_id.
Qed.

(** The sample corpus behind the endpoint: the nearest sentence comes first
    with score "0.0000", and as the endpoint always asks for five
    neighbours, three padding entries follow the two sentences. *)
Example search_endpoint_sample :
  fst (search_endpoint (sample_app (constant_encoder [0; 0]))
         (query_body (u "Hello world")) empty_world)
  = Ok [ {| sentence := u "Hallo Welt"; translation := u "Hello world";
            score := u "0.0000" |};
         {| sentence := u "Guten Morgen"; translation := u "Good morning";
            score := u "2.0000" |};
         {| sentence := u "Guten Morgen"; translation := u "Good morning";
            score := u "340282346638528859811704183484516925440.0000" |};
         {| sentence := u "Guten Morgen"; translation := u "Good morning";
            score := u "340282346638528859811704183484516925440.0000" |};
         {| sentence := u "Guten Morgen"; translation := u "Good morning";
            score := u "340282346638528859811704183484516925440.0000" |} ].
Proof. vm_compute. reflexivity. Qed.

(** ** More on [strip] and on the lines read back *)

Lemma lstrip_idem (s : str) : lstrip (lstrip s) = lstrip s.
Proof.
  induction s as [|c s IH]; simpl; [done|].
  destruct (isspace c) eqn:Hc; [done|]. simpl. by rewrite Hc.
Qed.

Lemma elem_of_lstrip (x : char) (s : str) : x ∈ lstrip s -> x ∈ s.
Proof.
  induction s as [|c s IH]; simpl; [done|].
  destruct (isspace c); [|done]. intros Hx. right. by apply IH.
Qed.

Lemma lstrip_snoc (t : str) (c : char) :
  lstrip (t ++ [c])
  = match lstrip t with
    | [] => if isspace c then [] else [c]
    | _ => lstrip t ++ [c]
    end.
Proof.
  induction t as [|a t IH]; simpl; [done|].
  destruct (isspace a); [done|]. done.
Qed.

Lemma rstrip_cons (c : char) (s : str) :
  rstrip (c :: s)
  = match rstrip s with
    | [] => if isspace c then [] else [c]
    | _ => c :: rstrip s
    end.
Proof.
  unfold rstrip. simpl rev at 1. rewrite lstrip_snoc.
  destruct (lstrip (rev s)) as [|a t] eqn:Hl; simpl.
  - by destruct (isspace c).
  - rewrite rev_app_distr. simpl.
    destruct (rev t ++ [a]) eqn:Hr; [|done].
    by destruct (rev t).
Qed.

Lemma rstrip_idem (s : str) : rstrip (rstrip s) = rstrip s.
Proof. unfold rstrip. by rewrite rev_involutive, lstrip_idem. Qed.

Lemma elem_of_rstrip (x : char) (s : str) : x ∈ rstrip s -> x ∈ s.
Proof.
  unfold rstrip. rewrite !list_elem_of_In, <- !in_rev, <- !list_elem_of_In.
  intros Hx. apply elem_of_lstrip in Hx.
  by rewrite list_elem_of_In, <- in_rev, <- list_elem_of_In in Hx.
Qed.

Lemma lstrip_rstrip (s : str) : lstrip (rstrip s) = rstrip (lstrip s).
Proof.
  induction s as [|c s IH]; [done|].
  rewrite rstrip_cons. cbn [lstrip].
  destruct (isspace c) eqn:Hc.
  - rewrite <- IH. destruct (rstrip s) as [|a t]; simpl; [done|]. by rewrite Hc.
  - rewrite rstrip_cons.
    destruct (rstrip s) as [|a t]; simpl; by rewrite Hc.
Qed.

Lemma strip_idem (s : str) : strip (strip s) = strip s.
Proof.
  unfold strip.
  by rewrite <- (lstrip_rstrip (rstrip s)), rstrip_idem, lstrip_idem.
Qed.

Lemma elem_of_strip (x : char) (s : str) : x ∈ strip s -> x ∈ s.
Proof. unfold strip. intros Hx. by apply elem_of_rstrip, elem_of_lstrip. Qed.

(** No leading and no trailing whitespace. *)
Lemma strip_fixed_iff (s : str) :
  strip s = s <-> lstrip s = s /\ rstrip s = s.
Proof.
  split.
  - intros Hs. split.
    + rewrite <- Hs at 1. unfold strip. by rewrite lstrip_idem.
    + rewrite <- Hs at 1. unfold strip.
      by rewrite <- lstrip_rstrip, rstrip_idem.
  - intros [Hl Hr]. unfold strip. by rewrite Hr, Hl.
Qed.

Lemma universal_newlines_no_CR (s : str) : CR ∉ io.universal_newlines s.
Proof.
  assert (forall (n : nat) (t : str), (length t <= n)%nat ->
            CR ∉ io.universal_newlines t) as Hall.
  { induction n as [|n IH]; intros t Hlen.
    - destruct t; [apply not_elem_of_nil|simpl in Hlen; lia].
    - destruct t as [|c t]; [apply not_elem_of_nil|].
      simpl in Hlen. simpl.
      destruct (N.eqb_spec c CR) as [->|Hc].
      + apply not_elem_of_cons. split; [done|].
        destruct t as [|c' t']; [apply not_elem_of_nil|].
        simpl in Hlen.
        destruct (c' =? LF)%N; apply IH; simpl; lia.
      + apply not_elem_of_cons. split; [done|]. apply IH. lia. }
  by apply (Hall (length s)).
Qed.

Lemma split_keepends_one_line (s : str) :
  forall cur : str,
    one_line cur -> CR ∉ s ->
    Forall (fun t => one_line (strip t)) (io.split_keepends cur s).
Proof.
  assert (forall t : str, one_line t -> one_line (strip t)) as Hstrip.
  { intros t [Hlf Hcr]. split; intros Hx; apply elem_of_strip in Hx; done. }
  induction s as [|c s IH]; intros cur Hcur Hcr; simpl.
  - destruct cur; [constructor|]. constructor; [by apply Hstrip|constructor].
  - apply not_elem_of_cons in Hcr as [Hc Hs].
    destruct (N.eqb_spec c LF) as [->|Hlf].
    + constructor.
      * rewrite strip_line. by apply Hstrip.
      * apply IH; [|done]. split; apply not_elem_of_nil.
    + apply IH; [|done]. destruct Hcur as [H1 H2].
      split; rewrite elem_of_app, list_elem_of_singleton; intros [?|?]; done.
Qed.

(** ** The scripts end to end *)

(** What [create_embeddings.py] leaves on disk. *)
Lemma create_embeddings_main_world (dataset selected : list example)
    (model : SentenceTransformer) (embeddings : ndarray) (w : world) :
  select_range dataset (Z.to_nat 10000) = Ok selected ->
  encode model (map de selected) = Ok embeddings ->
  create_embeddings_main dataset model w
  = (Ok (),
     World (<["knowledge_base/sentences.txt"%string :=
                TextFile (concat (map (fun s => s ++ [LF]) (map de selected)))]>
              (<["knowledge_base/embeddings.npy"%string := NpyFile embeddings]>
                 (files w)))
           (calls w)).
Proof.
  intros Hsel Henc.
  unfold create_embeddings_main, create_embeddings.
  unfold mbind, py_mbind, py_bind, py_lift, result_bind, np.save.
  rewrite Hsel, Henc. simpl. by rewrite write_sentences_spec.
Qed.

(** [build_index.py] run after [create_embeddings.py] loads the embeddings
    as they were computed and, for one-line sentences, the stripped German
    sentences. *)
Lemma knowledge_base_round_trip (dataset selected : list example)
    (model : SentenceTransformer) (embeddings : ndarray) (w : world) :
  select_range dataset (Z.to_nat 10000) = Ok selected ->
  encode model (map de selected) = Ok embeddings ->
  Forall one_line (map de selected) ->
  fst (load_knowledge_base "knowledge_base"
         (snd (create_embeddings_main dataset model w)))
  = Ok (Some (embeddings, map strip (map de selected))).
Proof.
  intros Hsel Henc Hlines.
  rewrite (create_embeddings_main_world _ _ _ _ _ Hsel Henc). simpl snd.
  rewrite (load_knowledge_base_present _ _ embeddings
             (concat (map (fun s => s ++ [LF]) (map de selected)))).
  - simpl. rewrite universal_newlines_id.
    2:{ apply lines_without_CR. eapply Forall_impl; [exact Hlines|].
        by intros s [_ ?]. }
    rewrite split_keepends_lines.
    2:{ eapply Forall_impl; [exact Hlines|]. by intros s [? _]. }
    rewrite (map_map (fun s => s ++ [LF]) strip). do 3 f_equal.
    apply map_ext. intros s. apply strip_line.
  - simpl. rewrite lookup_insert_ne by done. apply lookup_insert_eq.
  - simpl. apply lookup_insert_eq.
Qed.

(** * Further properties of the scripts *)

(** ** loading_data.py *)

Lemma for_range_print_example (dataset : list example) (n : nat) :
  forall (m : nat) (c : list str),
    (m <= length dataset)%nat ->
    for_range (Z.of_nat m) n (print_example dataset) c
    = (if bool_decide (m + n <= length dataset)%nat then Ok () else Raise "IndexError",
       c ++ printed_examples (Z.of_nat m) (take n (drop m dataset))).
Proof.
  induction n as [|n IH]; intros m c Hle.
  - simpl. rewrite app_nil_r. by rewrite bool_decide_true by lia.
  - cbn [for_range]. unfold mbind, out_mbind, out_bind. unfold print_example at 1.
    unfold mbind, out_mbind, out_bind, out_lift, print.
    destruct (dataset !! m) as [ex|] eqn:Hm.
    + rewrite (getitem_nat _ _ _ Hm).
      replace (Z.of_nat m + 1) with (Z.of_nat (S m)) by lia.
      pose proof (lookup_lt_Some _ _ _ Hm) as Hlt.
      rewrite IH by lia.
      rewrite (drop_S _ _ _ Hm). cbn [take printed_examples example_lines].
      replace (Z.of_nat m + 1) with (Z.of_nat (S m)) by lia.
      unfold example_lines.
      replace (Z.of_nat m + 1) with (Z.of_nat (S m)) by lia.
      rewrite <- !app_assoc.
      destruct (decide (S m + n <= length dataset)%nat).
      * rewrite (bool_decide_true (S m + n <= _)%nat) by lia.
        by rewrite (bool_decide_true (m + S n <= _)%nat) by lia.
      * rewrite (bool_decide_false (S m + n <= _)%nat) by lia.
        by rewrite (bool_decide_false (m + S n <= _)%nat) by lia.
    + apply lookup_ge_None in Hm.
      rewrite bool_decide_false by lia.
      rewrite drop_ge by done. rewrite take_nil. simpl. rewrite app_nil_r.
      unfold getitem.
      destruct (Z.ltb_spec (Z.of_nat m) 0) as [?|_]; [lia|].
      destruct (Z.ltb_spec (Z.of_nat m) 0) as [?|_]; [lia|].
      destruct (Z.leb_spec (Z.of_nat (length dataset)) (Z.of_nat m)) as [_|?];
        [done|lia].
Qed.

Lemma loading_data_main_run (load_dataset : result (list example))
    (message : exn -> str) (c : list str) :
  loading_data_main load_dataset message c
  = (Ok (),
     c ++ [u "Starting Step 1: Loading the dataset...";
           u "Downloading the Tatoeba dataset for German-English..."]
       ++ match load_dataset with
          | Raise e => error_notice message e
          | Ok dataset =>
              [u "Dataset downloaded successfully!";
               [LF] ++ u "Number of sentence pairs in the dataset: "
                 ++ u (pretty (length dataset));
               [LF] ++ u "Here are the first 5 examples from the dataset:"]
              ++ printed_examples 0 (take 5 dataset)
              ++ (if bool_decide (5 <= length dataset)%nat then []
                  else error_notice message "IndexError")
          end).
Proof.
  unfold loading_data_main, try_except, mbind, out_mbind, out_bind, out_lift, print.
  destruct load_dataset as [dataset|e].
  - pose proof (for_range_print_example dataset 5 0) as Hloop.
    change (Z.of_nat 0) with 0 in Hloop. rewrite Hloop by lia. clear Hloop.
    rewrite drop_0. simpl Nat.add.
    destruct (bool_decide (5 <= length dataset)%nat); unfold error_notice;
      simpl; rewrite <- ?app_assoc; simpl; by rewrite ?app_nil_r.
  - unfold error_notice. simpl. by rewrite <- !app_assoc.
Qed.

(** X1. [main] of loading_data.py never raises: whatever the datasets
    library does (it may fail to load) and however few rows the dataset has,
    the exception is caught and [main] returns normally. *)
Theorem loading_data_main_never_raises (load_dataset : result (list example))
    (message : exn -> str) (c : list str) :
  fst (loading_data_main load_dataset message c) = Ok ().
Proof. by rewrite loading_data_main_run. Qed.

(** X2. What loading_data.py prints.  After its two opening lines: when the
    dataset cannot be loaded, the three-line error notice with the text of
    the exception; otherwise the three header lines (with the number of
    rows), then the three lines of each of the first five rows, and, when
    the dataset has fewer than five rows, the rows there are followed by the
    error notice of the [IndexError]. *)
Theorem loading_data_main_output (load_dataset : result (list example))
    (message : exn -> str) (c : list str) :
  snd (loading_data_main load_dataset message c)
  = c ++ [u "Starting Step 1: Loading the dataset...";
          u "Downloading the Tatoeba dataset for German-English..."]
      ++ match load_dataset with
         | Raise e => error_notice message e
         | Ok dataset =>
             [u "Dataset downloaded successfully!";
              [LF] ++ u "Number of sentence pairs in the dataset: "
                ++ u (pretty (length dataset));
              [LF] ++ u "Here are the first 5 examples from the dataset:"]
             ++ printed_examples 0 (take 5 dataset)
             ++ (if bool_decide (5 <= length dataset)%nat then []
                 else error_notice message "IndexError")
         end.
Proof. by rewrite loading_data_main_run. Qed.

(** ** build_index.py: loading *)

(** X3. [load_knowledge_base] only reads: whatever the directory holds and
    whether it returns, gives up or raises, the files and the call log are
    left as they were. *)
Theorem load_knowledge_base_read_only (directory : string) (w : world) :
  snd (load_knowledge_base directory w) = w.
Proof.
  unfold load_knowledge_base, mbind, py_mbind, py_bind, os_path.exists_,
    np.load, io.readlines. simpl.
  destruct (negb _ || negb _); [done|].
  destruct (files w !! os_path.join directory "embeddings.npy")
    as [[[|? ?]|?|[|? ?]]|]; try done.
  by destruct (files w !! os_path.join directory "sentences.txt") as [[?|?|?]|].
Qed.

Lemma load_knowledge_base_inv (directory : string) (w : world)
    (a : ndarray) (sentences : list str) :
  fst (load_knowledge_base directory w) = Ok (Some (a, sentences)) ->
  exists content : str,
    files w !! os_path.join directory "sentences.txt" = Some (TextFile content) /\
    files w !! os_path.join directory "embeddings.npy" = Some (NpyFile a) /\
    sentences = map strip (io.split_keepends [] (io.universal_newlines content)).
Proof.
  unfold load_knowledge_base, mbind, py_mbind, py_bind, os_path.exists_,
    np.load, io.readlines. simpl.
  destruct (negb _ || negb _); [done|].
  destruct (files w !! os_path.join directory "embeddings.npy")
    as [[[|? ?]|a'|[|? ?]]|]; try done.
  destruct (files w !! os_path.join directory "sentences.txt") as [[content|?|?]|];
    try done.
  simpl. intros [= -> <-]. by exists content.
Qed.

(** X4. Whatever the sentence file holds, every sentence that
    [load_knowledge_base] returns is a single line without leading or
    trailing whitespace: it contains no LF and no CR and is its own
    stripped form. *)
Theorem load_knowledge_base_sentences_clean (directory : string) (w : world)
    (a : ndarray) (sentences : list str) :
  fst (load_knowledge_base directory w) = Ok (Some (a, sentences)) ->
  Forall (fun s => one_line s /\ strip s = s) sentences.
Proof.
  intros Hload. apply load_knowledge_base_inv in Hload as (content & _ & _ & ->).
  apply Forall_forall. intros s Hs.
  change (map strip ?l) with (strip <$> l) in Hs.
  apply list_elem_of_fmap in Hs as (t & -> & Ht).
  split; [|apply strip_idem].
  pose proof (split_keepends_one_line (io.universal_newlines content) []
                (conj (not_elem_of_nil _) (not_elem_of_nil _))
                (universal_newlines_no_CR _)) as Hall.
  rewrite Forall_forall in Hall. by apply Hall.
Qed.

Lemma load_knowledge_base_sentences_clean_witness :
  Forall (fun s => one_line s /\ strip s = s) [u "Hallo Welt"; u "Guten Morgen"].
Proof.
  apply (load_knowledge_base_sentences_clean "knowledge_base" mismatched_world
           (NDArray 2 [[0; 0]; [1; 1]; [2; 2]])).
  reflexivity.
Defined.

(** ** create_embeddings.py *)

(** X5. The sentence file is rewritten from scratch: after the [with]
    block of [main], the file holds one LF-terminated line per sentence, in
    order, whatever it held before; every other file and the call log are
    untouched. *)
Theorem write_sentences_overwrites (sentence_path : string)
    (german_sentences : list str) (w : world) :
  fst (write_sentences sentence_path german_sentences w) = Ok () /\
  files (snd (write_sentences sentence_path german_sentences w)) !! sentence_path
  = Some (TextFile (concat (map (fun s => s ++ [LF]) german_sentences))) /\
  (forall p : string,
     p <> sentence_path ->
     files (snd (write_sentences sentence_path german_sentences w)) !! p
     = files w !! p) /\
  calls (snd (write_sentences sentence_path german_sentences w)) = calls w.
Proof.
  rewrite write_sentences_spec. simpl.
  split; [done|]. split; [apply lookup_insert_eq|]. split; [|done].
  intros p Hp. by apply lookup_insert_ne.
Qed.

Lemma write_sentences_overwrites_witness :
  files (snd (write_sentences "knowledge_base/sentences.txt"
                [u "Guten Tag"] sample_world))
    !! "knowledge_base/sentences.txt"%string
  = Some (TextFile (u "Guten Tag" ++ [LF])) /\
  files (snd (write_sentences "knowledge_base/sentences.txt"
                [u "Guten Tag"] sample_world))
    !! "knowledge_base/embeddings.npy"%string
  = files sample_world !! "knowledge_base/embeddings.npy"%string.
Proof.
  destruct (write_sentences_overwrites "knowledge_base/sentences.txt"
              [u "Guten Tag"] sample_world) as (_ & Hfile & Hothers & _).
  split.
  - exact Hfile.
  - apply Hothers. discriminate.
Defined.

(** X6. [create_embeddings.py] writes nothing unless everything before the
    writes succeeded: with a dataset that has rows, but fewer than 10000, it
    raises [IndexError], and when the encoder raises on the selected
    sentences it ends with the encoder's exception; in both cases no file
    is created or changed. *)
Theorem create_embeddings_main_fails_clean (dataset : list example)
    (model : SentenceTransformer) (w : world) :
  ((0 < length dataset < Z.to_nat 10000)%nat ->
   create_embeddings_main dataset model w = (Raise "IndexError", w)) /\
  (forall (selected : list example) (e : exn),
     select_range dataset (Z.to_nat 10000) = Ok selected ->
     encode model (map de selected) = Raise e ->
     create_embeddings_main dataset model w = (Raise e, w)).
Proof.
  unfold create_embeddings_main, create_embeddings.
  unfold mbind, py_mbind, py_bind, py_lift, result_bind.
  split.
  - intros [Hpos Hlt]. unfold select_range.
    destruct dataset as [|ex dataset]; [simpl in Hpos; lia|].
    destruct (Nat.leb_spec (Z.to_nat 10000) (length (ex :: dataset))); [lia|done].
  - intros selected e Hsel Henc. by rewrite Hsel, Henc.
Qed.

Lemma create_embeddings_main_fails_clean_witness :
  create_embeddings_main [{| de := u "Ja"; en := u "Yes" |}]
    (constant_encoder [0; 0]) empty_world
  = (Raise "IndexError", empty_world) /\
  create_embeddings_main sample_dataset (failing_encoder "RuntimeError") empty_world
  = (Raise "RuntimeError", empty_world).
Proof.
  split.
  - apply (proj1 (create_embeddings_main_fails_clean
                    [{| de := u "Ja"; en := u "Yes" |}]
                    (constant_encoder [0; 0]) empty_world)).
    simpl. lia.
  - apply (proj2 (create_embeddings_main_fails_clean sample_dataset
                    (failing_encoder "RuntimeError") empty_world)
             sample_dataset "RuntimeError").
    + vm_compute. reflexivity.
    + reflexivity.
Defined.

(** X7. Running [create_embeddings.py] a second time changes nothing: for a
    dataset of at least 10000 rows and an encoder that accepts its first
    10000 German sentences, the world after two runs is the world after
    one. *)
Theorem create_embeddings_main_idempotent (dataset selected : list example)
    (model : SentenceTransformer) (embeddings : ndarray) (w : world) :
  select_range dataset (Z.to_nat 10000) = Ok selected ->
  encode model (map de selected) = Ok embeddings ->
  snd (create_embeddings_main dataset model
         (snd (create_embeddings_main dataset model w)))
  = snd (create_embeddings_main dataset model w).
Proof.
  intros Hsel Henc.
  rewrite !(create_embeddings_main_world _ _ _ _ _ Hsel Henc). simpl.
  f_equal. apply map_eq. intros p.
  rewrite !lookup_insert. by repeat case_decide.
Qed.

Lemma create_embeddings_main_idempotent_witness :
  snd (create_embeddings_main sample_dataset (constant_encoder [0; 0])
         (snd (create_embeddings_main sample_dataset (constant_encoder [0; 0])
                 empty_world)))
  = snd (create_embeddings_main sample_dataset (constant_encoder [0; 0])
           empty_world).
Proof.
  apply (create_embeddings_main_idempotent sample_dataset sample_dataset
           (constant_encoder [0; 0])
           (NDArray 2 (map (fun _ => [0; 0]) (map de sample_dataset)))
           empty_world).
  - vm_compute. reflexivity.
  - reflexivity.
Defined.

Lemma knowledge_base_round_trip_witness :
  fst (load_knowledge_base "knowledge_base"
         (snd (create_embeddings_main sample_dataset (constant_encoder [0; 0])
                 empty_world)))
  = Ok (Some (NDArray 2 (map (fun _ => [0; 0]) (map de sample_dataset)),
              map strip (map de sample_dataset))).
Proof.
  apply (knowledge_base_round_trip sample_dataset sample_dataset
           (constant_encoder [0; 0])
           (NDArray 2 (map (fun _ => [0; 0]) (map de sample_dataset)))
           empty_world).
  - vm_compute. reflexivity.
  - reflexivity.
  - apply (bool_decide_unpack _). vm_compute. reflexivity.
Defined.

(** ** build_index.py: main *)

(** X9. Without a knowledge base, [main] of build_index.py stops at once:
    when either file is missing it returns normally, writes no index file
    and never runs the test search. *)
Theorem build_index_main_without_knowledge_base
    (model : SentenceTransformer) (w : world) :
  files w !! "knowledge_base/embeddings.npy"%string = None \/
  files w !! "knowledge_base/sentences.txt"%string = None ->
  build_index_main model w = (Ok (), w).
Proof.
  intros Hmiss. unfold build_index_main.
  unfold mbind at 1. unfold py_mbind, py_bind.
  by rewrite (load_knowledge_base_missing "knowledge_base" w Hmiss).
Qed.

Lemma build_index_main_without_knowledge_base_witness :
  build_index_main (failing_encoder "RuntimeError") empty_world
  = (Ok (), empty_world).
Proof.
  apply (build_index_main_without_knowledge_base
           (failing_encoder "RuntimeError") empty_world).
  left. reflexivity.
Defined.

(** X10. [main] of build_index.py writes the index file before it runs its
    test search.  With both knowledge base files present, the world it
    leaves has the serialized index of the stored matrix at
    [knowledge_base/faiss.index] and is otherwise unchanged, and [main]
    ends as the test search (three neighbours of the fixed English query)
    ends: normally, or with the exception of the search, the file staying
    written. *)
Theorem build_index_main_writes_then_searches
    (model : SentenceTransformer) (w : world) (M : ndarray) (content : str) :
  files w !! "knowledge_base/embeddings.npy"%string = Some (NpyFile M) ->
  files w !! "knowledge_base/sentences.txt"%string = Some (TextFile content) ->
  build_index_main model w
  = (match search test_query model (faiss.Index (shape1 M) (rows M))
             (map strip (io.split_keepends [] (io.universal_newlines content))) 3
     with
     | Ok _ => Ok ()
     | Raise e => Raise e
     end,
     World (<["knowledge_base/faiss.index"%string :=
                BinaryFile (faiss.serialize (faiss.Index (shape1 M) (rows M)))]>
              (files w))
           (calls w)).
Proof.
  intros Hnpy Htxt. unfold build_index_main.
  unfold mbind at 1. unfold py_mbind, py_bind.
  rewrite (load_knowledge_base_present "knowledge_base" w M content Hnpy Htxt).
  rewrite create_faiss_index_spec.
  unfold mbind, py_mbind, py_bind, py_lift, faiss.write_index. simpl.
  by destruct (search _ _ _ _ _).
Qed.

Lemma build_index_main_writes_then_searches_witness :
  build_index_main (constant_encoder [0; 0]) mismatched_world
  = (Raise "IndexError",
     World (<["knowledge_base/faiss.index"%string :=
                BinaryFile [faiss.fourcc_IxF2; 2; 3; 0; 0; 1; 1; 2; 2]]>
              (files mismatched_world))
           []).
Proof.
  apply (build_index_main_writes_then_searches (constant_encoder [0; 0])
           mismatched_world (NDArray 2 [[0; 0]; [1; 1]; [2; 2]])
           (u "Hallo Welt" ++ [LF] ++ u "Guten Morgen" ++ [LF])).
  - reflexivity.
  - reflexivity.
Defined.

(** ** build_index.py: the result list of [search] *)

Lemma getitem_out_of_range {A} (l : list A) (i : Z) :
  ~ (- Z.of_nat (length l) <= i < Z.of_nat (length l)) ->
  getitem l i = Raise "IndexError".
Proof.
  intros Hi. unfold getitem.
  destruct (Z.ltb_spec i 0).
  - destruct (Z.ltb_spec (i + Z.of_nat (length l)) 0); [done|].
    destruct (Z.leb_spec (Z.of_nat (length l)) (i + Z.of_nat (length l)));
      [done|lia].
  - destruct (Z.ltb_spec i 0); [lia|].
    destruct (Z.leb_spec (Z.of_nat (length l)) i); [done|lia].
Qed.

Lemma getitem_Ok_lookup {A} (l : list A) (i : Z) (x : A) :
  getitem l i = Ok x ->
  exists j : nat,
    l !! j = Some x /\
    Z.of_nat j = (if i <? 0 then i + Z.of_nat (length l) else i).
Proof.
  unfold getitem.
  set (j := if i <? 0 then i + Z.of_nat (length l) else i).
  destruct (Z.ltb_spec j 0); [done|].
  destruct (Z.leb_spec (Z.of_nat (length l)) j); [done|]. simpl.
  destruct (l !! Z.to_nat j) as [y|] eqn:Hy; [|done].
  intros [= ->]. exists (Z.to_nat j). split; [done|lia].
Qed.

Lemma mapM_result_cons {A B} (f : A -> result B) (x : A) (l : list A) :
  mapM f (x :: l) = (y ← f x; k ← mapM f l; mret (y :: k)).
Proof. reflexivity. Qed.

Lemma mapM_sentence_of_raise (sentences : list str) (hits : list (Z * Z)) :
  ~ Forall (fun n => - Z.of_nat (length sentences) <= n.1
                     < Z.of_nat (length sentences)) hits ->
  mapM (sentence_of sentences) hits = Raise "IndexError".
Proof.
  induction hits as [|n hits IH]; intros Hnot.
  - exfalso. apply Hnot. constructor.
  - rewrite mapM_result_cons. unfold sentence_of in *.
    destruct (decide (- Z.of_nat (length sentences) <= n.1
                      < Z.of_nat (length sentences))) as [Hin|Hout].
    + destruct (getitem_in_range sentences n.1 Hin) as [s Hs]. rewrite Hs. simpl.
      rewrite IH; [done|]. intros Hall. apply Hnot. by constructor.
    + by rewrite (getitem_out_of_range _ _ Hout).
Qed.

(** X11. [search] returns a list exactly when every label that the index
    returns is an index of the sentence list in Python's sense (from
    [-len] to [len - 1]).  Then the results are, in the order of the
    index, the sentence at each label with its distance.  Otherwise
    [search] raises [IndexError] and returns nothing, not even the results
    assembled before the offending label. *)
Theorem search_result_or_index_error
    (query_text : str) (model : SentenceTransformer) (index : faiss.IndexFlatL2)
    (sentences : list str) (top_k : Z) (x : ndarray) (hits : list (Z * Z)) :
  encode model [query_text] = Ok x ->
  neighbours index x top_k = Ok hits ->
  (Forall (fun n => - Z.of_nat (length sentences) <= n.1
                    < Z.of_nat (length sentences)) hits ->
   exists results : list (str * Z),
     search query_text model index sentences top_k = Ok results /\
     Forall2 (fun n r => getitem sentences n.1 = Ok r.1 /\ r.2 = n.2)
       hits results) /\
  (~ Forall (fun n => - Z.of_nat (length sentences) <= n.1
                      < Z.of_nat (length sentences)) hits ->
   search query_text model index sentences top_k = Raise "IndexError").
Proof.
  intros Henc Hhits.
  rewrite (search_via_neighbours _ _ _ _ _ _ Henc), Hhits. simpl.
  split.
  - intros Hall.
    destruct (mapM_result_total (sentence_of sentences) hits) as [results Hres].
    { eapply Forall_impl; [exact Hall|]. intros n Hn. cbv beta in Hn.
      unfold sentence_of.
      destruct (getitem_in_range sentences n.1 Hn) as [s ->]. by eexists. }
    exists results. split; [done|].
    apply mapM_result_Forall2 in Hres.
    eapply Forall2_impl; [exact Hres|].
    intros n r. unfold sentence_of.
    destruct (getitem sentences n.1) as [s|]; simpl; [|done].
    by intros [= <-].
  - apply mapM_sentence_of_raise.
Qed.

Lemma search_result_or_index_error_witness :
  (exists results : list (str * Z),
     search (u "Hello") (constant_encoder [0; 0]) sample_index
       sample_sentences 2 = Ok results /\
     Forall2 (fun n r => getitem sample_sentences n.1 = Ok r.1 /\ r.2 = n.2)
       [(0, 0); (1, 2)] results) /\
  search (u "Hello") (constant_encoder [0; 0]) sample_index
    [u "Hallo Welt"] 2 = Raise "IndexError".
Proof.
  split.
  - apply (proj1 (search_result_or_index_error (u "Hello")
                    (constant_encoder [0; 0]) sample_index sample_sentences 2
                    (NDArray 2 [[0; 0]]) [(0, 0); (1, 2)] eq_refl eq_refl)).
    repeat constructor; simpl; lia.
  - apply (proj2 (search_result_or_index_error (u "Hello")
                    (constant_encoder [0; 0]) sample_index [u "Hallo Welt"] 2
                    (NDArray 2 [[0; 0]]) [(0, 0); (1, 2)] eq_refl eq_refl)).
    intros Hall. apply Forall_cons in Hall as [_ Hall].
    apply Forall_cons in Hall as [Hone _]. simpl in Hone. lia.
Defined.

(** ** app.py: the request handler *)

Lemma search_endpoint_world (app : App) (data : gmap string str) (w : world)
    (q : str) (x : ndarray) :
  data !! "query"%string = Some q -> q <> [] ->
  encode (MODEL app) [q] = Ok x ->
  snd (search_endpoint app data w)
  = World (files w) ((calls w ++ [EncoderCall [q]]) ++ [IndexSearchCall x 5]).
Proof.
  intros Hq Hne Henc. unfold search_endpoint. rewrite Hq. simpl.
  rewrite bool_decide_false by done.
  unfold mbind, py_mbind, py_bind, MODEL_encode, FAISS_INDEX_search, py_lift.
  rewrite Henc. simpl.
  by destruct (faiss.search (FAISS_INDEX app) x 5) as [[distances indices]|e].
Qed.

(** X12. On a non-empty query that the encoder embeds as [x],
    [search_endpoint] asks the index once for the 5 neighbours of [x] and
    answers with one entry per neighbour, in the order of the index: the
    sentence and the translation at the neighbour's label and its distance
    written with four decimals.  If the index or one of the two lookups
    raises, the request ends with that exception and no entry is returned.
    Either way the call log gains the encoder call and the index call, in
    that order, and no file is touched. *)
Theorem search_endpoint_run (app : App) (data : gmap string str) (w : world)
    (q : str) (x : ndarray) :
  data !! "query"%string = Some q -> q <> [] ->
  encode (MODEL app) [q] = Ok x ->
  search_endpoint app data w
  = (ns ← neighbours (FAISS_INDEX app) x 5; mapM (answer_of app) ns,
     World (files w) ((calls w ++ [EncoderCall [q]]) ++ [IndexSearchCall x 5])).
Proof.
  intros Hq Hne Henc.
  rewrite (surjective_pairing (search_endpoint app data w)).
  by rewrite (search_endpoint_via_neighbours app data w q x Hq Hne Henc),
    (search_endpoint_world app data w q x Hq Hne Henc).
Qed.

Lemma search_endpoint_run_witness :
  search_endpoint (sample_app (constant_encoder [1; 1])) (query_body (u "Hi"))
    empty_world
  = (ns ← neighbours sample_index (NDArray 2 [[1; 1]]) 5;
     mapM (answer_of (sample_app (constant_encoder [1; 1]))) ns,
     World ∅ [EncoderCall [u "Hi"]; IndexSearchCall (NDArray 2 [[1; 1]]) 5]).
Proof.
  apply (search_endpoint_run (sample_app (constant_encoder [1; 1]))
           (query_body (u "Hi")) empty_world (u "Hi") (NDArray 2 [[1; 1]])).
  - reflexivity.
  - discriminate.
  - reflexivity.
Defined.

(** X13. What a request never does.  [search_endpoint] never touches a
    file; it calls the encoder at most once, with the query text alone; it
    searches the index at most once, only after the encoder has returned,
    with the encoder's output and k = 5. *)
Theorem search_endpoint_effects (app : App) (data : gmap string str) (w : world) :
  files (snd (search_endpoint app data w)) = files w /\
  (calls (snd (search_endpoint app data w)) = calls w \/
   (exists (q : str) (e : exn),
      data !! "query"%string = Some q /\
      encode (MODEL app) [q] = Raise e /\
      calls (snd (search_endpoint app data w)) = calls w ++ [EncoderCall [q]]) \/
   (exists (q : str) (x : ndarray),
      data !! "query"%string = Some q /\
      encode (MODEL app) [q] = Ok x /\
      calls (snd (search_endpoint app data w))
      = calls w ++ [EncoderCall [q]; IndexSearchCall x 5])).
Proof.
  unfold search_endpoint.
  destruct (data !! "query"%string) as [q|] eqn:Hq; simpl.
  2:{ split; [done|]. by left. }
  case_bool_decide as Hne; simpl.
  { split; [done|]. by left. }
  unfold mbind, py_mbind, py_bind, MODEL_encode, FAISS_INDEX_search, py_lift.
  destruct (encode (MODEL app) [q]) as [x|e] eqn:Henc; simpl.
  - destruct (faiss.search (FAISS_INDEX app) x 5) as [[distances indices]|e];
      simpl; (split; [done|]); right; right; exists q, x;
      by rewrite <- app_assoc.
  - split; [done|]. right. left. by exists q, e.
Qed.

(** ** app.py: start-up and alignment *)

Lemma app_startup_inv (model : SentenceTransformer) (dataset : list example)
    (w w' : world) (app : App) :
  app_startup model dataset w = (Ok app, w') ->
  w' = w /\
  fst (faiss.read_index "knowledge_base/faiss.index" w) = Ok (FAISS_INDEX app) /\
  (dataset = [] \/ (Z.to_nat 10000 <= length dataset)%nat) /\
  MODEL app = model /\
  SENTENCES app = map de (take (Z.to_nat 10000) dataset) /\
  ENGLISH_SENTENCES app = map en (take (Z.to_nat 10000) dataset).
Proof.
  unfold app_startup, select_range.
  unfold mbind, py_mbind, py_bind, py_lift, faiss.read_index.
  destruct (files w !! "knowledge_base/faiss.index"%string) as [[?|?|words]|];
    try done.
  destruct (faiss.deserialize words) as [index|]; [|done].
  destruct dataset as [|ex dataset].
  - simpl. intros [= <- <-]. simpl. repeat split; auto.
  - destruct (Nat.leb_spec (Z.to_nat 10000) (length (ex :: dataset))); [|done].
    intros [= <- <-]. cbn [MODEL FAISS_INDEX SENTENCES ENGLISH_SENTENCES fst].
    repeat split; auto.
Qed.

(** X14. When the module body of app.py runs to its end, the world is as
    before, and [SENTENCES] and [ENGLISH_SENTENCES] have the same number of
    entries: exactly 10000, or none when the dataset is empty.  Entry i of
    the one is the German side and entry i of the other the English side of
    row i of the dataset. *)
Theorem app_startup_aligned (model : SentenceTransformer)
    (dataset : list example) (w w' : world) (app : App) :
  app_startup model dataset w = (Ok app, w') ->
  w' = w /\
  length (SENTENCES app) = length (ENGLISH_SENTENCES app) /\
  (length (SENTENCES app) = Z.to_nat 10000 \/
   (dataset = [] /\ SENTENCES app = [] /\ ENGLISH_SENTENCES app = [])) /\
  (forall (i : nat) (ex : example),
     (i < Z.to_nat 10000)%nat -> dataset !! i = Some ex ->
     SENTENCES app !! i = Some (de ex) /\
     ENGLISH_SENTENCES app !! i = Some (en ex)).
Proof.
  intros Hstart.
  apply app_startup_inv in Hstart as (-> & _ & Hlen & _ & -> & ->).
  split; [done|]. split; [by rewrite !length_map|]. split.
  - destruct Hlen as [->|Hlen]; [by right|].
    left. rewrite length_map, length_take. lia.
  - intros i ex Hi Hex.
    change (map ?f ?l) with (f <$> l). rewrite !list_lookup_fmap.
    by rewrite lookup_take_lt, Hex by done.
Qed.

Lemma app_startup_aligned_witness :
  length (SENTENCES started_app) = length (ENGLISH_SENTENCES started_app) /\
  (length (SENTENCES started_app) = Z.to_nat 10000 \/
   (sample_dataset = [] /\ SENTENCES started_app = [] /\
    ENGLISH_SENTENCES started_app = [])).
Proof.
  destruct (app_startup_aligned (constant_encoder [0; 0]) sample_dataset
              (snd (faiss.write_index sample_index "knowledge_base/faiss.index"
                      empty_world))
              (snd (faiss.write_index sample_index "knowledge_base/faiss.index"
                      empty_world))
              started_app) as (_ & Hsame & Hlen & _).
  - vm_compute. reflexivity.
  - split; [exact Hsame|exact Hlen].
Defined.

Lemma Forall2_right {A B} (P : A -> B -> Prop) (Q : B -> Prop)
    (l : list A) (l' : list B) :
  Forall2 P l l' -> (forall x y, P x y -> Q y) -> Forall Q l'.
Proof. induction 1; intros HPQ; constructor; eauto. Qed.

Lemma answer_of_inv (app : App) (n : Z * Z) (a : answer) :
  answer_of app n = Ok a ->
  getitem (SENTENCES app) n.1 = Ok (sentence a) /\
  getitem (ENGLISH_SENTENCES app) n.1 = Ok (translation a) /\
  score a = format_4f n.2.
Proof.
  unfold answer_of.
  destruct (getitem (SENTENCES app) n.1) as [s|]; simpl; [|done].
  destruct (getitem (ENGLISH_SENTENCES app) n.1) as [t|]; simpl; [|done].
  by intros [= <-].
Qed.

Lemma search_endpoint_answers_inv (app : App) (data : gmap string str)
    (w : world) (answers : list answer) :
  fst (search_endpoint app data w) = Ok answers ->
  Forall (fun a => exists n : Z * Z, answer_of app n = Ok a) answers.
Proof.
  intros Hans.
  destruct (data !! "query"%string) as [q|] eqn:Hq.
  2:{ unfold search_endpoint in Hans. rewrite Hq in Hans. simpl in Hans.
      injection Hans as <-. constructor. }
  destruct (decide (q = [])) as [->|Hne].
  { unfold search_endpoint in Hans. rewrite Hq in Hans. simpl in Hans.
    injection Hans as <-. constructor. }
  destruct (encode (MODEL app) [q]) as [x|e] eqn:Henc.
  - rewrite (search_endpoint_via_neighbours app data w q x Hq Hne Henc) in Hans.
    destruct (neighbours (FAISS_INDEX app) x 5) as [ns|]; simpl in Hans; [|done].
    apply mapM_result_Forall2 in Hans.
    eapply Forall2_right; [exact Hans|]. intros n a Ha. by exists n.
  - unfold search_endpoint in Hans. rewrite Hq in Hans. simpl in Hans.
    rewrite bool_decide_false in Hans by done.
    unfold mbind, py_mbind, py_bind, MODEL_encode in Hans.
    by rewrite Henc in Hans.
Qed.

(** X15. A sentence is never shown with another row's translation.  For
    the application as app.py starts it, every answer of [search_endpoint]
    carries the German and the English side of one and the same row of the
    dataset, among its first 10000. *)
Theorem search_endpoint_pairs_translation (model : SentenceTransformer)
    (dataset : list example) (w0 w1 w : world) (app : App)
    (data : gmap string str) (answers : list answer) :
  app_startup model dataset w0 = (Ok app, w1) ->
  fst (search_endpoint app data w) = Ok answers ->
  Forall (fun a =>
            exists (i : nat) (ex : example),
              (i < Z.to_nat 10000)%nat /\ dataset !! i = Some ex /\
              sentence a = de ex /\ translation a = en ex) answers.
Proof.
  intros Hstart Hans.
  apply app_startup_inv in Hstart as (_ & _ & Hlen & _ & Hde & Hen).
  apply search_endpoint_answers_inv in Hans.
  eapply Forall_impl; [exact Hans|]. intros a [n Ha].
  apply answer_of_inv in Ha as (Hs & Ht & _).
  rewrite Hde in Hs. rewrite Hen in Ht.
  apply getitem_Ok_lookup in Hs as (i & Hi & Hik).
  apply getitem_Ok_lookup in Ht as (j & Hj & Hjk).
  rewrite length_map in Hik, Hjk.
  assert (j = i) as -> by lia.
  change (map ?f ?l) with (f <$> l) in Hi, Hj.
  rewrite list_lookup_fmap in Hi, Hj.
  destruct (take (Z.to_nat 10000) dataset !! i) as [ex|] eqn:Hex; [|done].
  simpl in Hi, Hj. injection Hi as Hi. injection Hj as Hj.
  apply lookup_take_Some in Hex as [Hex Hlt].
  by exists i, ex.
Qed.

(** X16. With at least as many sentences and translations as the index has
    vectors (and at least one of each), a request whose query the encoder
    embeds in the dimension of the index always succeeds and returns exactly
    five answers, whatever the number of vectors in the index. *)
Theorem search_endpoint_five_answers (app : App) (data : gmap string str)
    (w : world) (q : str) (x : ndarray) (v : list Z) (rest : list (list Z)) :
  data !! "query"%string = Some q -> q <> [] ->
  encode (MODEL app) [q] = Ok x ->
  rows x = v :: rest ->
  shape1 x = faiss.index_d (FAISS_INDEX app) ->
  (0 < length (SENTENCES app))%nat ->
  (faiss.ntotal (FAISS_INDEX app) <= length (SENTENCES app))%nat ->
  (0 < length (ENGLISH_SENTENCES app))%nat ->
  (faiss.ntotal (FAISS_INDEX app) <= length (ENGLISH_SENTENCES app))%nat ->
  exists answers : list answer,
    fst (search_endpoint app data w) = Ok answers /\ length answers = 5%nat.
Proof.
  intros Hq Hne Henc Hrows Hd Hs0 Hs He0 He.
  rewrite (search_endpoint_via_neighbours app data w q x Hq Hne Henc).
  rewrite (neighbours_spec _ _ _ v rest Hrows Hd) by lia. simpl.
  destruct (mapM_result_total (answer_of app)
              (map swap_hit (faiss.knn (FAISS_INDEX app) (Z.to_nat 5) v)))
    as [answers Hans].
  { apply Forall_forall. intros n Hn.
    change (map ?f ?l) with (f <$> l) in Hn.
    apply list_elem_of_fmap in Hn as (h & -> & Hh).
    pose proof (knn_slots (FAISS_INDEX app) (Z.to_nat 5) v) as Hslots.
    rewrite Forall_forall in Hslots. specialize (Hslots h Hh).
    assert (-1 <= h.2 < Z.of_nat (faiss.ntotal (FAISS_INDEX app))) as Hrange.
    { destruct Hslots as [->|[? _]]; simpl; lia. }
    unfold answer_of, swap_hit. simpl.
    destruct (getitem_in_range (SENTENCES app) h.2) as [s ->]; [lia|].
    destruct (getitem_in_range (ENGLISH_SENTENCES app) h.2) as [t ->]; [lia|].
    by eexists. }
  exists answers. split; [exact Hans|].
  by rewrite (mapM_result_length _ _ _ Hans), length_map, length_knn.
Qed.

Lemma search_endpoint_five_answers_witness :
  exists answers : list answer,
    fst (search_endpoint (sample_app (constant_encoder [1; 1]))
           (query_body (u "Hi")) empty_world) = Ok answers /\
    length answers = 5%nat.
Proof.
  apply (search_endpoint_five_answers (sample_app (constant_encoder [1; 1]))
           (query_body (u "Hi")) empty_world (u "Hi") (NDArray 2 [[1; 1]])
           [1; 1] []).
  - reflexivity.
  - discriminate.
  - reflexivity.
  - reflexivity.
  - reflexivity.
  - vm_compute. lia.
  - vm_compute. lia.
  - vm_compute. lia.
  - vm_compute. lia.
Defined.

Lemma search_endpoint_pairs_translation_witness :
  Forall (fun a =>
            exists (i : nat) (ex : example),
              (i < Z.to_nat 10000)%nat /\ sample_dataset !! i = Some ex /\
              sentence a = de ex /\ translation a = en ex)
    (match fst (search_endpoint started_app (query_body (u "Hi")) empty_world) with
     | Ok answers => answers
     | Raise _ => []
     end).
Proof.
  apply (search_endpoint_pairs_translation (constant_encoder [0; 0])
           sample_dataset
           (snd (faiss.write_index sample_index "knowledge_base/faiss.index"
                   empty_world))
           (snd (faiss.write_index sample_index "knowledge_base/faiss.index"
                   empty_world))
           empty_world started_app (query_body (u "Hi"))).
  - vm_compute. reflexivity.
  - vm_compute. reflexivity.
Defined.

(** ** The three scripts in a row *)

(** X19. From the dataset to the running application.  When the dataset has
    at least 10000 rows and the encoder turns its first 10000 German
    sentences into a rectangular matrix, running create_embeddings.py,
    then build_index.py (whatever its test search does), then the module
    body of app.py always succeeds, and the application starts with an index
    that holds exactly the rows of that matrix, in order, and with the
    German and English sentences of the same 10000 rows. *)
Theorem pipeline_starts_app (dataset selected : list example)
    (model model_b model_a : SentenceTransformer) (embeddings : ndarray)
    (w : world) :
  select_range dataset (Z.to_nat 10000) = Ok selected ->
  encode model (map de selected) = Ok embeddings ->
  rectangular embeddings ->
  fst (app_startup model_a dataset
         (snd (build_index_main model_b
                 (snd (create_embeddings_main dataset model w)))))
  = Ok {| MODEL := model_a;
          FAISS_INDEX := faiss.Index (shape1 embeddings) (rows embeddings);
          SENTENCES := map de selected;
          ENGLISH_SENTENCES := map en selected |}.
Proof.
  intros Hsel Henc Hrect.
  rewrite (create_embeddings_main_world _ _ _ _ _ Hsel Henc). simpl snd.
  rewrite (build_index_main_world model_b _ embeddings
             (concat (map (fun s => s ++ [LF]) (map de selected)))).
  2:{ simpl. rewrite lookup_insert_ne by done. apply lookup_insert_eq. }
  2:{ simpl. apply lookup_insert_eq. }
  unfold app_startup. unfold mbind at 1. unfold py_mbind, py_bind.
  unfold faiss.read_index, faiss.write_index. simpl snd. simpl files.
  rewrite lookup_insert_eq.
  rewrite deserialize_serialize by exact Hrect.
  unfold mbind, py_mbind, py_bind, py_lift. rewrite Hsel. reflexivity.
Qed.

Lemma pipeline_starts_app_witness :
  fst (app_startup (constant_encoder [1; 1]) sample_dataset
         (snd (build_index_main (failing_encoder "RuntimeError")
                 (snd (create_embeddings_main sample_dataset
                         (constant_encoder [0; 0]) empty_world)))))
  = Ok {| MODEL := constant_encoder [1; 1];
          FAISS_INDEX :=
            faiss.Index 2 (map (fun _ => [0; 0]) (map de sample_dataset));
          SENTENCES := map de sample_dataset;
          ENGLISH_SENTENCES := map en sample_dataset |}.
Proof.
  apply (pipeline_starts_app sample_dataset sample_dataset
           (constant_encoder [0; 0]) (failing_encoder "RuntimeError")
           (constant_encoder [1; 1])
           (NDArray 2 (map (fun _ => [0; 0]) (map de sample_dataset)))
           empty_world).
  - vm_compute. reflexivity.
  - reflexivity.
  - apply Forall_forall. intros r Hr.
    change (map ?f ?l) with (f <$> l) in Hr.
    apply list_elem_of_fmap in Hr as (s & -> & _). reflexivity.
Defined.
